(** * atlas_densities.app.mtype_densities: input validation and command glue

    A shallow embedding of [atlas_densities/app/mtype_densities.py]: the
    validators of the composition command, the three click commands
    [create_from_profile], [create_from_probability_map] and
    [create_from_composition], and the properties of their error handling.

    Python values are modelled as follows.
    - [str] is [string]; a [set] of strings is a [gset string]; a [dict]
      with string keys is a [gmap string _]; a [dict] whose insertion order
      is observable is an association list updated in place.
    - A cell of a dataframe or a scalar of a yaml document is a [str], an
      [int] or the missing value NaN, as [pandas.read_csv] and
      [yaml.safe_load] produce them from text.
    - A numpy float array is a shape with a flat list of binary64 values
      ([spec_float] at precision 53, the IEEE 754 model of the standard
      library), so that NaN, infinities and signed zeros are present.
    - An exception is a value of [exn]; a computation that may raise
      returns a [result]; a command, which also writes files and calls the
      allocation core, is a function on the trace of such events. *)

From Stdlib Require Import ZArith String Ascii List.
From Stdlib Require Import SpecFloat.
From stdpp Require Import base list gmap strings sorting pretty.

Local Open Scope string_scope.

(** ** Python layer *)

Module Py.

(** The exceptions the module can see.  [AtlasDensitiesError] is the
    domain error of the package; [KeyError] is what a [dict] or a
    dataframe raises on a missing key; [TypeError] is what [str.join] and
    [sorted] raise on values that are not all strings (its text depends on
    the value met first and is not modelled); [ExternalError] stands for
    whatever a collaborator (voxcell, pandas, yaml, atlas_commons, the
    allocation core) raises. *)
Inductive exn : Type :=
| AtlasDensitiesError (msg : string)
| KeyError (key : string)
| TypeError
| ExternalError (origin : string).

Inductive result (A : Type) : Type :=
| Ok (a : A)
| Raise (e : exn).
Arguments Ok {A} a.
Arguments Raise {A} e.

Definition is_atlas_densities_error {A} (r : result A) : Prop :=
  exists msg, r = Raise (AtlasDensitiesError msg).

Definition raises {A} (r : result A) : Prop := exists e, r = Raise e.

(** Sequencing of computations that may raise. *)
Definition and_then {A B} (r : result A) (k : A -> result B) : result B :=
  match r with
  | Ok a => k a
  | Raise e => Raise e
  end.

(** The line feed of ["\n"]. *)
Definition nl : string := String (ascii_of_nat 10) EmptyString.

(** [sep.join(l)]. *)
Definition join (sep : string) (l : list string) : string :=
  String.concat sep l.

(** [repr] of a [str]: exact for strings without quote, backslash or
    non-printable characters, which is the case of every key and label
    this module formats itself. *)
Definition repr_str (s : string) : string := "'" ++ s ++ "'".

(** [repr] of a list of strings, as [f"{list(diff)}"] prints it. *)
Definition repr_list (l : list string) : string :=
  "[" ++ join ", " (map repr_str l) ++ "]".

(** [repr] of a set of strings; the empty set prints as [set()].  The
    iteration order of a set is the one of [elements]. *)
Definition repr_set (s : gset string) : string :=
  match elements s with
  | [] => "set()"
  | l => "{" ++ join ", " (map repr_str l) ++ "}"
  end.

(** The order [sorted] puts strings in: lexicographic on code units. *)
Definition str_le (a b : string) : Prop := String.leb a b = true.
Global Instance str_le_dec a b : Decision (str_le a b).
Proof. unfold str_le. apply _. Defined.

(** A substring: used to say that a message names a key. *)
Definition mentions (msg s : string) : Prop :=
  exists pre post, msg = pre ++ s ++ post.

End Py.
Import Py.

(** ** numpy layer: binary64 arrays *)

Module Np.

Definition float64 : Type := spec_float.

Definition prec : Z := 53.
Definition emax : Z := 1024.

Definition zero : float64 := S754_zero false.
Definition neg_zero : float64 := S754_zero true.

(** The default tolerances of [np.isclose]: the doubles nearest to
    [1e-5] and [1e-8]. *)
Definition rtol : float64 := S754_finite false 5902958103587057 (-69).
Definition atol : float64 := S754_finite false 6044629098073146 (-79).

Definition sub (x y : float64) : float64 := SFsub prec emax x y.
Definition add (x y : float64) : float64 := SFadd prec emax x y.
Definition mul (x y : float64) : float64 := SFmul prec emax x y.

Definition isfinite (x : float64) : bool :=
  match x with
  | S754_zero _ | S754_finite _ _ _ => true
  | S754_infinity _ | S754_nan => false
  end.

(** [np.isclose(x, y)] with the default [rtol], [atol] and
    [equal_nan=False]: [abs(x - y) <= atol + rtol * abs(y)] on finite
    operands, plain equality otherwise. *)
Definition within_tol (x y : float64) : bool :=
  SFleb (SFabs (sub x y)) (add atol (mul rtol (SFabs y))).

Definition isclose (x y : float64) : bool :=
  if isfinite x && isfinite y then within_tol x y else SFeqb x y.

Record ndarray : Type := {
  shape : list nat;
  data : list float64
}.

(** [np.allclose(a, b)] against a scalar [b]. *)
Definition allclose (a : ndarray) (b : float64) : bool :=
  forallb (fun x => isclose x b) (data a).

(** [np.any(a < b)] against a scalar [b]. *)
Definition any_lt (a : list float64) (b : float64) : bool :=
  existsb (fun x => SFltb x b) a.

End Np.
Import Np.

(** ** voxcell and pandas layer *)

(** [voxcell.VoxelData]: an array with the voxel dimensions and the offset
    of the grid. *)
Record VoxelData : Type := {
  raw : ndarray;
  voxel_dimensions : list float64;
  offset : list float64
}.

(** [VoxelData.with_data]: same grid metadata, new payload. *)
Definition with_data (v : VoxelData) (d : ndarray) : VoxelData :=
  {| raw := d; voxel_dimensions := voxel_dimensions v; offset := offset v |}.

(** [VoxelData.shape]: the spatial part of the payload's shape. *)
Definition vd_shape (v : VoxelData) : list nat :=
  take (length (voxel_dimensions v)) (shape (raw v)).

(** A value in a cell of a dataframe or in a scalar of a yaml document: a
    [str], an [int], or the missing value NaN.  [pandas.read_csv] infers
    an [int] from digits and NaN from tokens such as [NA]; yaml does the
    same for unquoted digits and [.nan].  Other floats and booleans are
    not modelled. *)
Inductive cell : Type :=
| Str (s : string)
| Int (z : Z)
| NaN.

Global Instance cell_eq_dec : EqDecision cell.
Proof. solve_decision. Defined.

Global Instance cell_countable : Countable cell.
Proof.
  refine (inj_countable'
            (fun c => match c with
                      | Str s => inl s
                      | Int z => inr (inl z)
                      | NaN => inr (inr tt)
                      end)
            (fun x => match x with
                      | inl s => Str s
                      | inr (inl z) => Int z
                      | inr (inr _) => NaN
                      end) _).
  by intros [].
Defined.

Definition as_str (c : cell) : option string :=
  match c with
  | Str s => Some s
  | _ => None
  end.

(** [str(c)], as an f-string formats a value. *)
Definition py_str (c : cell) : string :=
  match c with
  | Str s => s
  | Int z => pretty z
  | NaN => "nan"
  end.

(** [repr(c)]. *)
Definition repr_cell (c : cell) : string :=
  match c with
  | Str s => repr_str s
  | Int z => pretty z
  | NaN => "nan"
  end.

(** [repr] of a set of cells, in the manner of [repr_set]. *)
Definition repr_cells (s : gset cell) : string :=
  match elements s with
  | [] => "set()"
  | l => "{" ++ join ", " (map repr_cell l) ++ "}"
  end.

(** [sep.join(l)] on arbitrary values: [TypeError] unless every item is a
    [str]. *)
Definition join_cells (sep : string) (l : list cell) : result string :=
  match mapM as_str l with
  | Some strs => Ok (join sep strs)
  | None => Raise TypeError
  end.

(** [sorted(s)]: strings are ordered among themselves; a mix of strings
    and other values raises [TypeError]; values none of which is a string
    come back in an order that is of no consequence here, [join] refusing
    them. *)
Definition sorted_cells (s : gset cell) : result (list cell) :=
  match mapM as_str (elements s) with
  | Some strs => Ok (Str <$> merge_sort str_le strs)
  | None =>
    if forallb (fun c => bool_decide (as_str c = None)) (elements s)
    then Ok (elements s)
    else Raise TypeError
  end.

(** [a == b] and [a - b] on two sets built from different tables.  A NaN
    is found in a set only as the very object put there, and the NaN of
    pandas and the NaN of yaml are two objects: a set that holds a NaN
    equals no set built elsewhere, and a NaN is never removed by a
    difference. *)
Definition py_set_eq (a b : gset cell) : bool :=
  bool_decide (a = b) && bool_decide (NaN ∉ a).

Definition py_set_difference (a b : gset cell) : gset cell :=
  a ∖ (b ∖ {[NaN]}).

(** A dataframe read from a whitespace-separated text file: its columns in
    order, each with its label and its cells. *)
Abbreviation DataFrame := (list (string * list cell)).

Definition columns (df : DataFrame) : list string := fst <$> df.

(** What [df[key]] evaluates to: a series when the label is unique, a
    dataframe of the matching columns when it is repeated. *)
Inductive item : Type :=
| Series (cells : list cell)
| Frame (df : DataFrame).

Definition select (key : string) (df : DataFrame) : DataFrame :=
  filter (fun c => c.1 = key) df.

Definition getitem (df : DataFrame) (key : string) : result item :=
  match select key df with
  | [] => Raise (KeyError key)
  | [c] => Ok (Series c.2)
  | cs => Ok (Frame cs)
  end.

(** [set(x)]: iterating a series gives its cells, iterating a dataframe
    gives its column labels. *)
Definition set_of_item (x : item) : gset cell :=
  match x with
  | Series cells => list_to_set cells
  | Frame df => list_to_set (Str <$> columns df)
  end.

(** The composition dataframe, built by [_load_neuronal_mtype_composition]
    with the fixed columns [density], [layer], [mtype]. *)
Record Composition : Type := {
  density : list float64;
  layer : list string;
  mtype : list cell
}.

(** One entry of the [neurons] list of the composition yaml file. *)
Record CompositionEntry : Type := {
  entry_density : float64;
  entry_layer : string;
  entry_mtype : cell
}.

(** ** The validators *)

(** [_load_neuronal_mtype_composition], after [yaml.safe_load]. *)
Definition composition_of_entries (entries : list CompositionEntry) : Composition :=
  {| density := map entry_density entries;
     layer := map (fun e => "layer_" ++ entry_layer e) entries;
     mtype := map entry_mtype entries |}.

Definition expected_columns : gset string := {["mtype"; "mClass"; "sClass"]}.
Definition expected_sclasses : gset cell := {[Str "EXC"; Str "INH"]}.

Definition pandas_index_repr (cols : list string) : string :=
  "Index([" ++ join ", " (map repr_str cols) ++ "], dtype='object')".

Definition _validate_mtype_taxonomy (taxonomy : DataFrame) : result unit :=
  if bool_decide (expected_columns ≠ list_to_set (columns taxonomy)) then
    Raise (AtlasDensitiesError
      ("Column name missmatch. Expected " ++ repr_set expected_columns
       ++ ", Found: " ++ pandas_index_repr (columns taxonomy)))
  else
    match getitem taxonomy "sClass" with
    | Raise e => Raise e
    | Ok col =>
      let sclasses := set_of_item col in
      if bool_decide (expected_sclasses ≠ sclasses) then
        Raise (AtlasDensitiesError
          ("sClass column values are different than expected." ++ nl
           ++ "Expected " ++ repr_cells expected_sclasses
           ++ ". Found " ++ repr_cells sclasses))
      else Ok tt
    end.

Definition _validate_density (density : VoxelData) : result unit :=
  if allclose (raw density) zero then
    Raise (AtlasDensitiesError "Density with zeros everywhere encountered.")
  else if any_lt (data (raw density)) zero then
    Raise (AtlasDensitiesError "Density with negative values encountered.")
  else Ok tt.

Definition _validate_neuronal_mtype_composition (composition : Composition) : result unit :=
  if any_lt (density composition) zero then
    Raise (AtlasDensitiesError "Negative density values encountered in composition.")
  else Ok tt.

(** The text of the congruency error around its four lists. *)
Definition congruency_text
    (only_taxonomy only_composition all_taxonomy all_composition : string)
    : string :=
  "Taxonomy and composition mtypes are inconsistent:" ++ nl
  ++ "In taxonomy but not in composition:" ++ only_taxonomy ++ nl
  ++ "In composition but not in taxonomy:" ++ only_composition ++ nl
  ++ "Taxonomy   :" ++ all_taxonomy ++ nl
  ++ "Composition:" ++ all_composition.

(** The message of the congruency error.  Its pieces are evaluated from
    left to right, and a value that is not a string makes [join] or
    [sorted] raise [TypeError] before the message exists.  The order in
    which a set is iterated is not fixed by Python; [elements] stands for
    it. *)
Definition congruency_message (taxonomy_mtypes composition_mtypes : gset cell)
    : result string :=
  and_then (join_cells " "
              (elements (py_set_difference taxonomy_mtypes composition_mtypes)))
    (fun only_taxonomy =>
  and_then (join_cells " "
              (elements (py_set_difference composition_mtypes taxonomy_mtypes)))
    (fun only_composition =>
  and_then (and_then (sorted_cells taxonomy_mtypes) (join_cells " "))
    (fun all_taxonomy =>
  and_then (and_then (sorted_cells composition_mtypes) (join_cells " "))
    (fun all_composition =>
  Ok (congruency_text only_taxonomy only_composition all_taxonomy
        all_composition))))).

Definition _check_taxonomy_composition_congruency
    (taxonomy : DataFrame) (composition : Composition) : result unit :=
  match getitem taxonomy "mtype" with
  | Raise e => Raise e
  | Ok col =>
    let taxonomy_mtypes := set_of_item col in
    let composition_mtypes : gset cell := list_to_set (mtype composition) in
    if negb (py_set_eq taxonomy_mtypes composition_mtypes) then
      match congruency_message taxonomy_mtypes composition_mtypes with
      | Ok msg => Raise (AtlasDensitiesError msg)
      | Raise e => Raise e
      end
    else Ok tt
  end.

Definition required_config_keys : gset string :=
  {["probabilityMapPath"; "molecularTypeDensityPaths"]}.

Definition _check_config_sanity {V} (config : gmap string V) : result unit :=
  let diff := required_config_keys ∖ dom config in
  if bool_decide (diff ≠ ∅) then
    Raise (AtlasDensitiesError
      ("The following keys are missing from the configuration file: "
       ++ repr_list (elements diff)))
  else Ok tt.


(** ** The collaborators of the commands *)

(** The expression [pathlib.Path(output_dir, name)], kept as written:
    pathlib normalises its arguments, so two such expressions may name one
    file, and nothing below relies on their naming different files. *)
Inductive path : Type :=
| Path (dir : string) (name : string).

(** Everything the commands import from other modules: the loaders of
    voxcell, json, yaml and pandas, the grid checks of atlas_commons and
    the allocation cores of [atlas_densities.densities].  Region maps,
    metadata, probability maps and profile collections are opaque to this
    module.  A generator is given by the sequence of pairs it yields and
    by the exception, if any, that ends it. *)
Record Externals : Type := {
  RegionMap : Type;
  Metadata : Type;
  ProbabilityMap : Type;
  DensityProfileCollection : Type;
  load_nrrd : string -> result VoxelData;
  save_nrrd : VoxelData -> path -> result unit;
  load_region_map : string -> result RegionMap;
  load_metadata : string -> result Metadata;
  load_config : string -> result (gmap string string);
  read_taxonomy : string -> result DataFrame;
  load_composition_entries : string -> result (list CompositionEntry);
  read_probability_map : string -> result ProbabilityMap;
  asarray_float32 : ndarray -> ndarray;
  assert_properties : list VoxelData -> result unit;
  assert_meta_properties : list VoxelData -> result unit;
  check_probability_map_sanity : ProbabilityMap -> result unit;
  profile_collection_load : string -> string -> string -> result DensityProfileCollection;
  create_mtype_densities :
    DensityProfileCollection -> VoxelData -> RegionMap -> Metadata -> ndarray ->
    string -> option VoxelData -> option VoxelData -> result unit;
  create_from_map :
    VoxelData -> RegionMap -> list (string * ndarray) -> list ProbabilityMap ->
    string -> string -> Z -> result unit;
  _create_from_composition :
    VoxelData -> RegionMap -> Metadata -> ndarray -> DataFrame -> Composition ->
    list (string * ndarray) * option exn
}.

(** What a command does to the outside: it hands fields to an allocation
    core, and it writes density files. *)
Inductive event : Type :=
| CoreFromProfile (annotation : VoxelData) (direction_vectors : ndarray)
    (output_dir : string) (excitatory inhibitory : option VoxelData)
| CoreFromMap (annotation : VoxelData) (densities : list (string * ndarray))
    (synapse_class output_dir : string) (n_jobs : Z)
| CoreFromComposition (annotation : VoxelData) (excitatory : ndarray)
    (taxonomy : DataFrame) (composition : Composition)
| SaveNrrd (file : path) (field : VoxelData).

(** ** Commands as trace transformers that may raise *)

Module Cmd.

Definition M (A : Type) : Type := list event -> result A * list event.

Definition ret {A} (a : A) : M A := fun t => (Ok a, t).

Definition raise {A} (e : exn) : M A := fun t => (Raise e, t).

Definition bind {A B} (m : M A) (k : A -> M B) : M B :=
  fun t =>
    match m t with
    | (Ok a, t') => k a t'
    | (Raise e, t') => (Raise e, t')
    end.

Definition lift {A} (r : result A) : M A := fun t => (r, t).

Definition emit (ev : event) : M unit := fun t => (Ok tt, (t ++ [ev])%list).

End Cmd.
Import Cmd.

Declare Scope cmd_scope.
Delimit Scope cmd_scope with cmd.
Notation "x <- m ;; k" := (bind m (fun x => k))
  (at level 100, m at next level, right associativity) : cmd_scope.
Notation "m ;;; k" := (bind m (fun _ => k))
  (at level 100, right associativity) : cmd_scope.

(** [d[key]] on a [dict]. *)
Definition dict_getitem {V} (d : gmap string V) (key : string) : result V :=
  match d !! key with
  | Some v => Ok v
  | None => Raise (KeyError key)
  end.

(** [d[key] = v] on a [dict] whose order is observable: a present key
    keeps its position. *)
Fixpoint dict_setitem {V} (key : string) (v : V) (d : list (string * V))
    : list (string * V) :=
  match d with
  | [] => [(key, v)]
  | (k, w) :: rest =>
    if decide (k = key) then (k, v) :: rest
    else (k, w) :: dict_setitem key v rest
  end.

Definition no_density_message : string :=
  "No neuron density files were provided. Expected: excitatory neuron density, or"
  ++ "inhibitory neuron density or both.".

Section Commands.

Variable X : Externals.

Local Open Scope cmd_scope.

(** The optional loading of one total density field in
    [create_from_profile]: [if key in config: ...; voxeldata.append(...)]. *)
Definition load_optional_density (config : gmap string string) (key : string)
    (voxeldata : list VoxelData) : M (option VoxelData * list VoxelData) :=
  match config !! key with
  | Some file =>
    d <- lift (load_nrrd X file) ;;
    ret (Some d, (voxeldata ++ [d])%list)
  | None => ret (None, voxeldata)
  end.

Definition create_from_profile
    (annotation_path hierarchy_path metadata_path direction_vectors_path
     mtypes_config_path output_dir : string) : M unit :=
  config <- lift (load_config X mtypes_config_path) ;;
  map_path <- lift (dict_getitem config "mtypeToProfileMapPath") ;;
  slices_path <- lift (dict_getitem config "layerSlicesPath") ;;
  profiles_dir <- lift (dict_getitem config "densityProfilesDirPath") ;;
  density_profile_collection <-
    lift (profile_collection_load X map_path slices_path profiles_dir) ;;
  metadata <- lift (load_metadata X metadata_path) ;;
  region_map <- lift (load_region_map X hierarchy_path) ;;
  annotation <- lift (load_nrrd X annotation_path) ;;
  direction_vectors <- lift (load_nrrd X direction_vectors_path) ;;
  let voxeldata := [annotation; direction_vectors] in
  inhibitory <-
    load_optional_density config "inhibitoryNeuronDensityPath" voxeldata ;;
  let '(inhibitory_neuron_density, voxeldata) := inhibitory in
  excitatory <-
    load_optional_density config "excitatoryNeuronDensityPath" voxeldata ;;
  let '(excitatory_neuron_density, voxeldata) := excitatory in
  if bool_decide (inhibitory_neuron_density = None)
     && bool_decide (inhibitory_neuron_density = None)
  then raise (AtlasDensitiesError no_density_message)
  else
    lift (assert_meta_properties X voxeldata) ;;;
    emit (CoreFromProfile annotation (asarray_float32 X (raw direction_vectors))
            output_dir excitatory_neuron_density inhibitory_neuron_density) ;;;
    lift (create_mtype_densities X density_profile_collection annotation
            region_map metadata (asarray_float32 X (raw direction_vectors))
            output_dir excitatory_neuron_density inhibitory_neuron_density).

(** The loop over [probability_map]: read, index, check, append. *)
Fixpoint load_probability_maps (files : list string)
    : result (list (ProbabilityMap X)) :=
  match files with
  | [] => Ok []
  | file :: rest =>
    match read_probability_map X file with
    | Raise e => Raise e
    | Ok loaded =>
      match check_probability_map_sanity X loaded with
      | Raise e => Raise e
      | Ok _ =>
        match load_probability_maps rest with
        | Raise e => Raise e
        | Ok maps => Ok (loaded :: maps)
        end
      end
    end
  end.

(** The dict comprehension over [marker]: every file is loaded, a repeated
    name keeps the field loaded last. *)
Fixpoint load_markers (marker : list (string * string))
    (acc : list (string * VoxelData)) : result (list (string * VoxelData)) :=
  match marker with
  | [] => Ok acc
  | (molecular_type, density_path) :: rest =>
    match load_nrrd X density_path with
    | Raise e => Raise e
    | Ok d => load_markers rest (dict_setitem molecular_type d acc)
    end
  end.

Definition create_from_probability_map
    (annotation_path hierarchy_path : string) (probability_map : list string)
    (marker : list (string * string)) (synapse_class output_dir : string)
    (n_jobs : Z) : M unit :=
  probability_maps <- lift (load_probability_maps probability_map) ;;
  region_map <- lift (load_region_map X hierarchy_path) ;;
  annotation <- lift (load_nrrd X annotation_path) ;;
  molecular_type_densities <- lift (load_markers marker []) ;;
  let voxeldata := ([annotation] ++ map snd molecular_type_densities)%list in
  lift (assert_meta_properties X voxeldata) ;;;
  let densities := map (fun kv => (kv.1, raw kv.2)) molecular_type_densities in
  emit (CoreFromMap annotation densities synapse_class output_dir n_jobs) ;;;
  lift (create_from_map X annotation region_map densities probability_maps
          synapse_class output_dir n_jobs).

Definition _load_neuronal_mtype_taxonomy (filename : string) : result DataFrame :=
  read_taxonomy X filename.

Definition _load_neuronal_mtype_composition (filename : string) : result Composition :=
  match load_composition_entries X filename with
  | Raise e => Raise e
  | Ok entries => Ok (composition_of_entries entries)
  end.

(** The writing loop of [create_from_composition] over the pairs the
    generator yields. *)
Fixpoint write_densities (annotation : VoxelData) (output_dir : string)
    (yielded : list (string * ndarray)) : M unit :=
  match yielded with
  | [] => ret tt
  | (mtype, density) :: rest =>
    let file := Path output_dir (mtype ++ "_densities.nrrd") in
    lift (save_nrrd X (with_data annotation density) file) ;;;
    emit (SaveNrrd file (with_data annotation density)) ;;;
    write_densities annotation output_dir rest
  end.

(** The rest of [create_from_composition] once the generator exists: the
    loop, then the exception that ended the generator, if any. *)
Definition write_and_finish (annotation : VoxelData) (output_dir : string)
    (generator : list (string * ndarray) * option exn) : M unit :=
  let '(yielded, failure) := generator in
  write_densities annotation output_dir yielded ;;;
  match failure with
  | Some e => raise e
  | None => ret tt
  end.

Definition create_from_composition
    (annotation_path hierarchy_path metadata_path excitatory_neuron_density_path
     taxonomy_path composition_path output_dir : string) : M unit :=
  annotation <- lift (load_nrrd X annotation_path) ;;
  region_map <- lift (load_region_map X hierarchy_path) ;;
  metadata <- lift (load_metadata X metadata_path) ;;
  excitatory_neuron_density <- lift (load_nrrd X excitatory_neuron_density_path) ;;
  lift (_validate_density excitatory_neuron_density) ;;;
  neuronal_mtype_taxonomy <- lift (_load_neuronal_mtype_taxonomy taxonomy_path) ;;
  lift (_validate_mtype_taxonomy neuronal_mtype_taxonomy) ;;;
  neuronal_mtype_composition <-
    lift (_load_neuronal_mtype_composition composition_path) ;;
  lift (_validate_neuronal_mtype_composition neuronal_mtype_composition) ;;;
  lift (assert_properties X [annotation; excitatory_neuron_density]) ;;;
  lift (_check_taxonomy_composition_congruency
          neuronal_mtype_taxonomy neuronal_mtype_composition) ;;;
  emit (CoreFromComposition annotation (raw excitatory_neuron_density)
          neuronal_mtype_taxonomy neuronal_mtype_composition) ;;;
  write_and_finish annotation output_dir
    (_create_from_composition X annotation region_map metadata
       (raw excitatory_neuron_density) neuronal_mtype_taxonomy
       neuronal_mtype_composition).

End Commands.


(** ** The claims read off the specification *)

(** "The set of values appearing in column [key]": the cells of every
    column that carries this label. *)
Definition column_values (df : DataFrame) (key : string) : gset cell :=
  list_to_set (concat (map snd (select key df))).

(** [x == 0.0] and [x < 0.0] on a binary64 value. *)
Definition is_zero (x : float64) : Prop := SFeqb x zero = true.
Definition is_negative (x : float64) : Prop := SFltb x zero = true.
Definition is_positive (x : float64) : Prop := SFltb zero x = true.

(** [abs(x) <= 1e-8]: where the default tolerance of [np.allclose] puts
    [x] when it is compared with zero. *)
Definition within_default_tolerance_of_zero (x : float64) : Prop :=
  SFleb (SFabs x) atol = true.



Definition malformed_taxonomy (taxonomy : DataFrame) : Prop :=
  (list_to_set (columns taxonomy) : gset string) ≠ expected_columns
  \/ column_values taxonomy "sClass" ≠ expected_sclasses.

Definition missing_config_key {V} (config : gmap string V) : Prop :=
  config !! "probabilityMapPath" = None
  \/ config !! "molecularTypeDensityPaths" = None.

(** The total density field a configuration key supplies to
    [create_from_profile], if any. *)
Definition supplied_density (X : Externals) (config : gmap string string)
    (key : string) : result (option VoxelData) :=
  match config !! key with
  | None => Ok None
  | Some file =>
    match load_nrrd X file with
    | Ok d => Ok (Some d)
    | Raise e => Raise e
    end
  end.

(** The density files among the events of a run. *)
Definition saved (events : list event) : list (path * VoxelData) :=
  omap (fun ev => match ev with
                  | SaveNrrd file field => Some (file, field)
                  | _ => None
                  end) events.

(** The file and field [create_from_composition] writes for a yielded
    pair. *)
Definition density_file (annotation : VoxelData) (output_dir : string)
    (yielded : string * ndarray) : path * VoxelData :=
  (Path output_dir (yielded.1 ++ "_densities.nrrd"),
   with_data annotation yielded.2).

(** All loads of [create_from_composition] succeed and each of its five
    checks passes. *)
Definition composition_inputs_validated (X : Externals)
    (annotation_path excitatory_neuron_density_path taxonomy_path
     composition_path : string) : Prop :=
  exists annotation excitatory taxonomy composition,
    load_nrrd X annotation_path = Ok annotation
    /\ load_nrrd X excitatory_neuron_density_path = Ok excitatory
    /\ _load_neuronal_mtype_taxonomy X taxonomy_path = Ok taxonomy
    /\ _load_neuronal_mtype_composition X composition_path = Ok composition
    /\ _validate_density excitatory = Ok tt
    /\ _validate_mtype_taxonomy taxonomy = Ok tt
    /\ _validate_neuronal_mtype_composition composition = Ok tt
    /\ assert_properties X [annotation; excitatory] = Ok tt
    /\ _check_taxonomy_composition_congruency taxonomy composition = Ok tt.

(** The event of writing the file of a yielded pair. *)
Definition save_event (annotation : VoxelData) (output_dir : string)
    (yielded : string * ndarray) : event :=
  SaveNrrd (density_file annotation output_dir yielded).1
           (density_file annotation output_dir yielded).2.

(** A written file is named after an mtype and built by
    [annotation.with_data], so that it carries the grid of the
    annotation. *)
Definition written_with_annotation_grid (annotation : VoxelData)
    (output_dir : string) (written : path * VoxelData) : Prop :=
  exists mtype density,
    written.1 = Path output_dir (mtype ++ "_densities.nrrd")
    /\ written.2 = with_data annotation density
    /\ voxel_dimensions written.2 = voxel_dimensions annotation
    /\ offset written.2 = offset annotation.

Definition succeeds {A} (r : result A) : Prop := exists a, r = Ok a.

(** ** A small atlas to run the commands on *)

Module Sample.

(** [np.allclose(a, b)] on two one-dimensional arrays of one length. *)
Definition allclose_arrays (a b : list float64) : bool :=
  bool_decide (length a = length b)
  && forallb (fun xy => isclose xy.1 xy.2) (zip a b).

(** A stand-in for the grid checks of atlas_commons, which are not part
    of this module: every field is compared with the first one, the shapes
    for equality, the voxel dimensions and the offsets with
    [np.allclose]. *)
Definition close_grid (v w : VoxelData) : bool :=
  bool_decide (vd_shape v = vd_shape w)
  && allclose_arrays (voxel_dimensions w) (voxel_dimensions v)
  && allclose_arrays (offset w) (offset v).

Definition grid_check (fields : list VoxelData) : result unit :=
  match fields with
  | [] => Ok tt
  | v :: rest =>
    if forallb (close_grid v) rest then Ok tt
    else Raise (ExternalError "AtlasCommonsError")
  end.

(** The doubles 1.0, 25.0 and the one nearest to 1e-9. *)
Definition f_one : float64 := S754_finite false 4503599627370496 (-52).
Definition f_25 : float64 := S754_finite false 7036874417766400 (-48).
Definition f_tiny : float64 := S754_finite false 4835703278458517 (-82).

Definition on_grid (sh : list nat) (values : list float64) : VoxelData :=
  {| raw := {| shape := sh; data := values |};
     voxel_dimensions := [f_25; f_25; f_25];
     offset := [zero; zero; zero] |}.

Definition annotation : VoxelData := on_grid [1; 1; 2]%nat [f_one; f_one].
Definition direction_vectors : VoxelData :=
  on_grid [1; 1; 2; 3]%nat [zero; f_one; zero; zero; f_one; zero].
Definition excitatory : VoxelData := on_grid [1; 1; 2]%nat [f_25; f_one].
Definition inhibitory : VoxelData := on_grid [1; 1; 2]%nat [f_one; zero].
Definition all_zero : VoxelData := on_grid [1; 1; 2]%nat [zero; neg_zero].
Definition tiny : VoxelData := on_grid [1; 1; 2]%nat [f_tiny; f_tiny].
Definition with_negative : VoxelData :=
  on_grid [1; 1; 2]%nat [f_one; SFopp f_one].
Definition shifted : VoxelData :=
  {| raw := {| shape := [1; 1; 2]%nat; data := [f_25; f_one] |};
     voxel_dimensions := [f_25; f_25; f_25];
     offset := [f_25; zero; zero] |}.

Definition nrrd_files : gmap string VoxelData :=
  list_to_map
    [("annotation.nrrd", annotation);
     ("direction_vectors.nrrd", direction_vectors);
     ("excitatory.nrrd", excitatory);
     ("inhibitory.nrrd", inhibitory);
     ("all_zero.nrrd", all_zero);
     ("shifted.nrrd", shifted)].

Definition profile_keys : list (string * string) :=
  [("mtypeToProfileMapPath", "mapping.tsv");
   ("layerSlicesPath", "layers.tsv");
   ("densityProfilesDirPath", "profiles")].

Definition config_files : gmap string (gmap string string) :=
  list_to_map
    [("excitatory_only.yaml",
      list_to_map (("excitatoryNeuronDensityPath", "excitatory.nrrd") :: profile_keys));
     ("inhibitory_only.yaml",
      list_to_map (("inhibitoryNeuronDensityPath", "inhibitory.nrrd") :: profile_keys));
     ("neither.yaml", list_to_map profile_keys);
     ("shifted.yaml",
      list_to_map (("inhibitoryNeuronDensityPath", "inhibitory.nrrd")
                   :: ("excitatoryNeuronDensityPath", "shifted.nrrd")
                   :: profile_keys))].

Definition taxonomy : DataFrame :=
  [("mtype", [Str "L1_DAC"; Str "L2_TPC"; Str "L3_TPC"]);
   ("mClass", [Str "INT"; Str "PYR"; Str "PYR"]);
   ("sClass", [Str "INH"; Str "EXC"; Str "EXC"])].

Definition taxonomy_only_exc : DataFrame :=
  [("mtype", [Str "L2_TPC"; Str "L3_TPC"]);
   ("mClass", [Str "PYR"; Str "PYR"]);
   ("sClass", [Str "EXC"; Str "EXC"])].

Definition taxonomy_ab : DataFrame :=
  [("mtype", [Str "A"; Str "B"]);
   ("mClass", [Str "PYR"; Str "INT"]);
   ("sClass", [Str "EXC"; Str "INH"])].

Definition taxonomy_files : gmap string DataFrame :=
  list_to_map
    [("taxonomy.tsv", taxonomy);
     ("taxonomy_only_exc.tsv", taxonomy_only_exc);
     ("taxonomy_ab.tsv", taxonomy_ab)].

Definition entry (d : float64) (l m : string) : CompositionEntry :=
  {| entry_density := d; entry_layer := l; entry_mtype := Str m |}.

Definition composition_entries : list CompositionEntry :=
  [entry f_one "1" "L1_DAC"; entry f_25 "2" "L2_TPC"; entry f_one "3" "L3_TPC"].

Definition composition_entries_ac : list CompositionEntry :=
  [entry f_one "1" "A"; entry f_one "2" "C"].

Definition composition_entries_negative : list CompositionEntry :=
  [entry f_one "1" "L1_DAC"; entry (SFopp f_25) "2" "L2_TPC";
   entry f_one "3" "L3_TPC"].

Definition composition_files : gmap string (list CompositionEntry) :=
  list_to_map
    [("composition.yaml", composition_entries);
     ("composition_ac.yaml", composition_entries_ac);
     ("composition_negative.yaml", composition_entries_negative)].

Definition read {V} (kind : string) (files : gmap string V) (file : string)
    : result V :=
  match files !! file with
  | Some v => Ok v
  | None => Raise (ExternalError kind)
  end.

(** A stand-in for the allocation generator: one pair per composition
    row, carrying the excitatory field. *)
Definition yield_all (excitatory_raw : ndarray) (composition : Composition)
    : list (string * ndarray) :=
  map (fun m => (py_str m, excitatory_raw)) (mtype composition).

Definition world : Externals :=
  {| RegionMap := unit;
     Metadata := unit;
     ProbabilityMap := unit;
     DensityProfileCollection := unit;
     load_nrrd := read "nrrd" nrrd_files;
     save_nrrd := fun _ _ => Ok tt;
     load_region_map := fun _ => Ok tt;
     load_metadata := fun _ => Ok tt;
     load_config := read "yaml" config_files;
     read_taxonomy := read "tsv" taxonomy_files;
     load_composition_entries := read "yaml" composition_files;
     read_probability_map := fun _ => Ok tt;
     asarray_float32 := fun a => a;
     assert_properties := grid_check;
     assert_meta_properties := grid_check;
     check_probability_map_sanity := fun _ => Ok tt;
     profile_collection_load := fun _ _ _ => Ok tt;
     create_mtype_densities := fun _ _ _ _ _ _ _ _ => Ok tt;
     create_from_map := fun _ _ _ _ _ _ _ => Ok tt;
     _create_from_composition :=
       fun _ _ _ excitatory_raw _ composition =>
         (yield_all excitatory_raw composition, None) |}.

(** What a run of [create_from_composition] on the sample atlas leaves
    behind. *)
Definition composition_trace : list event :=
  let composition := composition_of_entries composition_entries in
  CoreFromComposition annotation (raw excitatory) taxonomy composition
  :: map (save_event annotation "out") (yield_all (raw excitatory) composition).

End Sample.

(** ** Further notions used to describe the commands *)

(** The file given last for a marker name among the [--marker] options. *)
Fixpoint last_file (marker : list (string * string)) (name : string)
    : option string :=
  match marker with
  | [] => None
  | (molecular_type, file) :: rest =>
    match last_file rest name with
    | Some later => Some later
    | None => if decide (molecular_type = name) then Some file else None
    end
  end.

(** The keys [create_from_profile] reads unconditionally, in the order it
    reads them, and the first of them a configuration lacks. *)
Definition profile_config_keys : list string :=
  ["mtypeToProfileMapPath"; "layerSlicesPath"; "densityProfilesDirPath"].

Definition first_missing_key (config : gmap string string) : option string :=
  find (fun key => bool_decide (config !! key = None)) profile_config_keys.

(** A cell that holds a [str]. *)
Definition is_string (c : cell) : Prop := exists s, c = Str s.

(** What a caller can tell of an outcome without reading the message. *)
Inductive outcome : Type :=
| Returned
| DomainError
| KeyMissing
| NotAString
| Foreign.

Definition outcome_of {A} (r : result A) : outcome :=
  match r with
  | Ok _ => Returned
  | Raise (AtlasDensitiesError _) => DomainError
  | Raise (KeyError _) => KeyMissing
  | Raise TypeError => NotAString
  | Raise (ExternalError _) => Foreign
  end.

(** The outcome of a generator that ended with [failure]. *)
Definition generator_outcome (failure : option exn) : result unit :=
  match failure with
  | Some e => Raise e
  | None => Ok tt
  end.

(** The inputs of [create_from_composition] are loaded and pass its five
    checks. *)
Definition validated_inputs (X : Externals)
    (annotation_path hierarchy_path metadata_path excitatory_neuron_density_path
     taxonomy_path composition_path : string)
    (annotation : VoxelData) (region_map : RegionMap X) (metadata : Metadata X)
    (excitatory : VoxelData) (taxonomy : DataFrame) (composition : Composition)
    : Prop :=
  load_nrrd X annotation_path = Ok annotation
  /\ load_region_map X hierarchy_path = Ok region_map
  /\ load_metadata X metadata_path = Ok metadata
  /\ load_nrrd X excitatory_neuron_density_path = Ok excitatory
  /\ _load_neuronal_mtype_taxonomy X taxonomy_path = Ok taxonomy
  /\ _load_neuronal_mtype_composition X composition_path = Ok composition
  /\ _validate_density excitatory = Ok tt
  /\ _validate_mtype_taxonomy taxonomy = Ok tt
  /\ _validate_neuronal_mtype_composition composition = Ok tt
  /\ assert_properties X [annotation; excitatory] = Ok tt
  /\ _check_taxonomy_composition_congruency taxonomy composition = Ok tt.

(** ** Further scenarios on the sample atlas *)

Module Scenario.

Definition with_nan : VoxelData := Sample.on_grid [1; 1; 2]%nat [S754_nan; zero].

Definition repeated : Composition :=
  {| density := [Sample.f_one; Sample.f_one; Sample.f_25];
     layer := ["layer_1"; "layer_2"; "layer_2"];
     mtype := [Str "A"; Str "B"; Str "A"] |}.

Definition plain : Composition :=
  {| density := [zero; zero];
     layer := ["layer_6"; "layer_6"];
     mtype := [Str "B"; Str "A"] |}.

Definition taxonomy_without_mtype : DataFrame :=
  [("mClass", [Str "PYR"; Str "INT"]); ("sClass", [Str "EXC"; Str "INH"])].

(** A taxonomy whose file names an mtype [NA], which [pandas.read_csv]
    reads as the missing value, and one whose file names its mtypes by
    digits, which it reads as integers; with a composition whose yaml
    holds these names as strings. *)
Definition taxonomy_na : DataFrame :=
  [("mtype", [Str "A"; NaN]);
   ("mClass", [Str "PYR"; Str "INT"]);
   ("sClass", [Str "EXC"; Str "INH"])].

Definition entries_na : list CompositionEntry :=
  [Sample.entry Sample.f_one "1" "A"; Sample.entry Sample.f_one "2" "NA"].

Definition composition_na : Composition := composition_of_entries entries_na.

Definition taxonomy_digits : DataFrame :=
  [("mtype", [Int 1; Int 2]);
   ("mClass", [Str "PYR"; Str "INT"]);
   ("sClass", [Str "EXC"; Str "INH"])].

Definition composition_digits : Composition :=
  composition_of_entries [Sample.entry Sample.f_one "1" "1";
                          Sample.entry Sample.f_one "2" "3"].

Definition config_files : gmap string (gmap string string) :=
  list_to_map
    [("no_slices.yaml",
      list_to_map [("mtypeToProfileMapPath", "mapping.tsv");
                   ("densityProfilesDirPath", "profiles");
                   ("inhibitoryNeuronDensityPath", "inhibitory.nrrd")]);
     ("both.yaml",
      list_to_map (("inhibitoryNeuronDensityPath", "inhibitory.nrrd")
                   :: ("excitatoryNeuronDensityPath", "excitatory.nrrd")
                   :: Sample.profile_keys))].

(** A disk on which the file of [L2_TPC] cannot be written. *)
Definition save_unless_l2 (field : VoxelData) (file : path) : result unit :=
  match file with
  | Path _ name =>
    if decide (name = "L2_TPC_densities.nrrd") then Raise (ExternalError "OSError")
    else Ok tt
  end.

Definition world : Externals :=
  {| RegionMap := unit;
     Metadata := unit;
     ProbabilityMap := unit;
     DensityProfileCollection := unit;
     load_nrrd := Sample.read "nrrd" Sample.nrrd_files;
     save_nrrd := save_unless_l2;
     load_region_map := fun _ => Ok tt;
     load_metadata := fun _ => Ok tt;
     load_config := Sample.read "yaml" config_files;
     read_taxonomy := Sample.read "tsv" Sample.taxonomy_files;
     load_composition_entries := Sample.read "yaml" Sample.composition_files;
     read_probability_map := fun _ => Ok tt;
     asarray_float32 := fun a => a;
     assert_properties := Sample.grid_check;
     assert_meta_properties := Sample.grid_check;
     check_probability_map_sanity := fun _ => Ok tt;
     profile_collection_load := fun _ _ _ => Ok tt;
     create_mtype_densities := fun _ _ _ _ _ _ _ _ => Ok tt;
     create_from_map := fun _ _ _ _ _ _ _ => Ok tt;
     _create_from_composition :=
       fun _ _ _ excitatory_raw _ composition =>
         (Sample.yield_all excitatory_raw composition, None) |}.

(** The sample atlas with more files: a field whose voxels are larger
    than those of the annotation by one unit in the last place, and the
    taxonomy and composition that name an mtype [NA]. *)
Definition f_25_next : float64 := S754_finite false 7036874417766401 (-48).

Definition rescaled : VoxelData :=
  {| raw := {| shape := [1; 1; 2]%nat; data := [Sample.f_25; Sample.f_one] |};
     voxel_dimensions := [f_25_next; Sample.f_25; Sample.f_25];
     offset := [zero; zero; zero] |}.

Definition nrrd_files : gmap string VoxelData :=
  <["rescaled.nrrd" := rescaled]> Sample.nrrd_files.

Definition taxonomy_files : gmap string DataFrame :=
  <["taxonomy_na.tsv" := taxonomy_na]> Sample.taxonomy_files.

Definition composition_files : gmap string (list CompositionEntry) :=
  <["composition_na.yaml" := entries_na]> Sample.composition_files.

Definition extended_world : Externals :=
  {| RegionMap := unit;
     Metadata := unit;
     ProbabilityMap := unit;
     DensityProfileCollection := unit;
     load_nrrd := Sample.read "nrrd" nrrd_files;
     save_nrrd := fun _ _ => Ok tt;
     load_region_map := fun _ => Ok tt;
     load_metadata := fun _ => Ok tt;
     load_config := Sample.read "yaml" config_files;
     read_taxonomy := Sample.read "tsv" taxonomy_files;
     load_composition_entries := Sample.read "yaml" composition_files;
     read_probability_map := fun _ => Ok tt;
     asarray_float32 := fun a => a;
     assert_properties := Sample.grid_check;
     assert_meta_properties := Sample.grid_check;
     check_probability_map_sanity := fun _ => Ok tt;
     profile_collection_load := fun _ _ _ => Ok tt;
     create_mtype_densities := fun _ _ _ _ _ _ _ _ => Ok tt;
     create_from_map := fun _ _ _ _ _ _ _ => Ok tt;
     _create_from_composition :=
       fun _ _ _ excitatory_raw _ composition =>
         (Sample.yield_all excitatory_raw composition, None) |}.

End Scenario.

(** ** Strings and messages *)

Lemma append_assoc (a b c : string) : (a ++ b) ++ c = a ++ (b ++ c).
Proof.
  induction a as [|ch a IH]; [reflexivity|].
  change (String ch ((a ++ b) ++ c) = String ch (a ++ (b ++ c))).
  now f_equal.
Qed.

Lemma mentions_refl (s : string) : mentions s s.
Proof.
  exists EmptyString, EmptyString.
  change (s = s ++ EmptyString).
  induction s as [|ch s IH]; [reflexivity|].
  change (String ch s = String ch (s ++ EmptyString)).
  now f_equal.
Qed.

Lemma mentions_app_l (a b s : string) : mentions a s -> mentions (a ++ b) s.
Proof.
  intros (pre & post & ->). exists pre, (post ++ b).
  now rewrite !append_assoc.
Qed.

Lemma mentions_app_r (a b s : string) : mentions b s -> mentions (a ++ b) s.
Proof.
  intros (pre & post & ->). exists (a ++ pre), post.
  now rewrite !append_assoc.
Qed.

Lemma mentions_join (sep s : string) (l : list string) :
  s ∈ l -> mentions (join sep l) s.
Proof.
  unfold join. induction l as [|x l IH]; intros Hin.
  - inversion Hin.
  - apply elem_of_cons in Hin as [->|Hin].
    + destruct l as [|y l]; simpl.
      * apply mentions_refl.
      * apply mentions_app_l, mentions_refl.
    + destruct l as [|y l]; [inversion Hin|].
      change (String.concat sep (x :: y :: l))
        with (x ++ sep ++ String.concat sep (y :: l)).
      now apply mentions_app_r, mentions_app_r, IH.
Qed.

Lemma mentions_repr_str (s : string) : mentions (repr_str s) s.
Proof. unfold repr_str. apply mentions_app_r, mentions_app_l, mentions_refl. Qed.

Lemma mentions_trans (a b c : string) : mentions a b -> mentions b c -> mentions a c.
Proof.
  intros (p1 & q1 & ->) Hbc.
  now apply mentions_app_r, mentions_app_l.
Qed.

Lemma mentions_repr_list (s : string) (l : list string) :
  s ∈ l -> mentions (repr_list l) s.
Proof.
  intros Hin. unfold repr_list.
  apply mentions_app_r, mentions_app_l.
  apply mentions_trans with (repr_str s); [|apply mentions_repr_str].
  apply mentions_join. now apply list_elem_of_fmap_2.
Qed.

(** ** Comparisons with zero in binary64 *)

Lemma is_zero_inv (x : float64) : is_zero x -> exists s, x = S754_zero s.
Proof.
  unfold is_zero. destruct x as [s|s| |s m e]; try discriminate.
  - eauto.
  - destruct s; discriminate.
  - destruct s; discriminate.
Qed.

Lemma isclose_zero (x : float64) : isclose x zero = SFleb (SFabs x) atol.
Proof. destruct x as [s|s| |s m e]; try destruct s; reflexivity. Qed.

Lemma allclose_zero (a : ndarray) :
  allclose a zero = true <-> Forall within_default_tolerance_of_zero (data a).
Proof.
  unfold allclose, within_default_tolerance_of_zero.
  rewrite forallb_forall, Forall_forall.
  split; intros H x Hx.
  - rewrite <- isclose_zero. apply H. now apply list_elem_of_In.
  - rewrite isclose_zero. apply H. now apply list_elem_of_In.
Qed.

Lemma is_zero_within_tolerance (x : float64) :
  is_zero x -> within_default_tolerance_of_zero x.
Proof. intros [s ->]%is_zero_inv. now destruct s. Qed.

Lemma is_positive_not_zero (x : float64) : is_positive x -> SFeqb x zero = false.
Proof.
  unfold is_positive. destruct x as [s|s| |s m e]; try discriminate.
  - now destruct s.
  - now destruct s.
Qed.

Lemma any_lt_true (a : list float64) :
  any_lt a zero = true <-> Exists is_negative a.
Proof.
  unfold any_lt, is_negative. rewrite existsb_exists, Exists_exists.
  split; intros (x & Hx & Hlt); exists x; split; try done; now apply list_elem_of_In.
Qed.

(** ** Column selection in a dataframe with distinct labels *)

Lemma select_absent (df : DataFrame) (key : string) :
  key ∉ columns df -> select key df = [].
Proof.
  unfold select, columns. induction df as [|[k cells] df IH]; intros Hnot; [done|].
  rewrite fmap_cons, not_elem_of_cons in Hnot. destruct Hnot as [Hne Hnot].
  rewrite filter_cons_False; [by apply IH | simpl in *; congruence].
Qed.

Lemma select_unique (df : DataFrame) (key : string) :
  NoDup (columns df) -> key ∈ columns df ->
  exists cells, select key df = [(key, cells)].
Proof.
  unfold columns. induction df as [|[k cells] df IH]; intros Hnd Hin.
  - inversion Hin.
  - rewrite fmap_cons in Hnd, Hin. apply NoDup_cons in Hnd as [Hfresh Hnd].
    destruct (decide (k = key)) as [->|Hne].
    + exists cells. unfold select. rewrite filter_cons_True by done.
      f_equal. by apply select_absent.
    + apply elem_of_cons in Hin as [Heq|Hin]; [simpl in Heq; congruence|].
      destruct (IH Hnd Hin) as [cs Hcs]. exists cs.
      unfold select. rewrite filter_cons_False by done. exact Hcs.
Qed.

Lemma getitem_unique (df : DataFrame) (key : string) :
  NoDup (columns df) -> key ∈ columns df ->
  exists cells,
    getitem df key = Ok (Series cells)
    /\ column_values df key = list_to_set cells.
Proof.
  intros Hnd Hin. destruct (select_unique df key Hnd Hin) as [cells Hsel].
  exists cells. unfold getitem, column_values. rewrite Hsel. simpl.
  by rewrite app_nil_r.
Qed.

(** ** The taxonomy and configuration validators *)

(** C2. On a dataframe with distinct column labels,
    [_validate_mtype_taxonomy] raises [AtlasDensitiesError] exactly when
    the set of column labels is not [{mtype, mClass, sClass}] or the set of
    values of the [sClass] column is not [{EXC, INH}], and returns
    otherwise; a taxonomy whose [sClass] column holds only [EXC], or only
    [INH], is rejected. *)
Theorem validate_mtype_taxonomy_raises_iff (taxonomy : DataFrame) :
  NoDup (columns taxonomy) ->
  (is_atlas_densities_error (_validate_mtype_taxonomy taxonomy)
     <-> malformed_taxonomy taxonomy)
  /\ (_validate_mtype_taxonomy taxonomy = Ok tt <-> ~ malformed_taxonomy taxonomy)
  /\ (column_values taxonomy "sClass" = {[Str "EXC"]}
      \/ column_values taxonomy "sClass" = {[Str "INH"]} ->
      is_atlas_densities_error (_validate_mtype_taxonomy taxonomy)).
Proof.
  intros Hnd.
  assert (Hmain :
    (malformed_taxonomy taxonomy
       /\ is_atlas_densities_error (_validate_mtype_taxonomy taxonomy))
    \/ (~ malformed_taxonomy taxonomy /\ _validate_mtype_taxonomy taxonomy = Ok tt)).
  { unfold _validate_mtype_taxonomy, malformed_taxonomy.
    case_bool_decide as Hcols.
    - left. split; [left; congruence | eexists; reflexivity].
    - assert (Hin : "sClass" ∈ columns taxonomy).
      { apply (elem_of_list_to_set (C := gset string)).
        rewrite <- Hcols. unfold expected_columns. set_solver. }
      destruct (getitem_unique taxonomy "sClass" Hnd Hin) as (cells & -> & ->).
      simpl. case_bool_decide as Hs.
      + left. split; [right; congruence | eexists; reflexivity].
      + right. split; [|reflexivity].
        intros [H|H]; congruence. }
  split; [|split].
  - split; [intros [msg Hr] | intros Hbad].
    + destruct Hmain as [[Hbad _]|[_ Hok]]; [done | congruence].
    + destruct Hmain as [[_ Hr]|[Hgood _]]; done.
  - split; [intros Hok | intros Hgood].
    + destruct Hmain as [[_ [msg Hr]]|[Hgood _]]; [congruence | done].
    + destruct Hmain as [[Hbad _]|[_ Hok]]; done.
  - intros Hone.
    destruct Hmain as [[_ Hr]|[Hgood _]]; [done|].
    exfalso. apply Hgood. right. unfold expected_sclasses.
    destruct Hone as [-> | ->]; intros Heq.
    + assert (H : Str "INH" ∈ ({[Str "EXC"]} : gset cell)).
      { rewrite Heq. apply elem_of_union_r. by apply elem_of_singleton. }
      apply elem_of_singleton in H. discriminate H.
    + assert (H : Str "EXC" ∈ ({[Str "INH"]} : gset cell)).
      { rewrite Heq. apply elem_of_union_l. by apply elem_of_singleton. }
      apply elem_of_singleton in H. discriminate H.
Qed.

(** C8. [_check_config_sanity] raises [AtlasDensitiesError] exactly when
    [probabilityMapPath] or [molecularTypeDensityPaths] is not a key of the
    configuration, whatever its other keys; it returns otherwise; and the
    message it raises names every missing key. *)
Theorem check_config_sanity_raises_iff {V} (config : gmap string V) :
  (is_atlas_densities_error (_check_config_sanity config)
     <-> missing_config_key config)
  /\ (_check_config_sanity config = Ok tt <-> ~ missing_config_key config)
  /\ (forall msg key,
      _check_config_sanity config = Raise (AtlasDensitiesError msg) ->
      key ∈ required_config_keys -> config !! key = None ->
      mentions msg key).
Proof.
  assert (Hdiff : required_config_keys ∖ dom config ≠ ∅ <-> missing_config_key config).
  { unfold missing_config_key, required_config_keys.
    rewrite <- !(not_elem_of_dom (D := gset string)).
    split.
    - intros Hne.
      destruct (decide ("probabilityMapPath" ∈ dom config)) as [H1|H1]; [|by left].
      destruct (decide ("molecularTypeDensityPaths" ∈ dom config)) as [H2|H2]; [|by right].
      exfalso. apply Hne. apply elem_of_equiv_empty_L.
      intros key [Hkey Habsent]%elem_of_difference.
      apply elem_of_union in Hkey as [Hkey|Hkey];
        apply elem_of_singleton in Hkey; by subst key.
    - intros [H|H] Hempty.
      + apply (not_elem_of_empty (C := gset string) "probabilityMapPath").
        rewrite <- Hempty. apply elem_of_difference. split; [|done].
        apply elem_of_union_l. by apply elem_of_singleton.
      + apply (not_elem_of_empty (C := gset string) "molecularTypeDensityPaths").
        rewrite <- Hempty. apply elem_of_difference. split; [|done].
        apply elem_of_union_r. by apply elem_of_singleton. }
  unfold _check_config_sanity. case_bool_decide as Hd.
  - split; [|split].
    + split; [intros _; by apply Hdiff | intros _; eexists; reflexivity].
    + split; [discriminate | intros Hn; exfalso; by apply Hn, Hdiff].
    + intros msg key [= <-] Hreq Hnone.
      apply mentions_app_r, mentions_repr_list, elem_of_elements.
      apply elem_of_difference. split; [done|].
      by apply not_elem_of_dom.
  - split; [|split].
    + split; [intros [msg Hr]; discriminate | intros Hm; by apply Hdiff in Hm].
    + split; [intros _ Hm; by apply Hdiff in Hm | done].
    + intros msg key Hr. discriminate.
Qed.

(** ** Joining and sorting cells *)

Lemma mapM_as_str_Some (l : list cell) (strs : list string) :
  mapM as_str l = Some strs <-> l = Str <$> strs.
Proof.
  split.
  - intros H. symmetry. apply (mapM_fmap_Some_inv as_str Str l strs H).
    intros [s|z|] y [=]. by subst.
  - intros ->. by apply mapM_fmap_Some.
Qed.

Lemma mapM_as_str_None (l : list cell) :
  mapM as_str l = None <-> exists c, c ∈ l /\ ~ is_string c.
Proof.
  rewrite mapM_None, Exists_exists. split.
  - intros (c & Hin & Hc). exists c. split; [done|].
    intros [s ->]. discriminate.
  - intros (c & Hin & Hc). exists c. split; [done|].
    destruct c as [s|z|]; [|done..]. exfalso. apply Hc. by exists s.
Qed.

Lemma join_cells_cases (sep : string) (l : list cell) :
  (exists strs, l = Str <$> strs /\ join_cells sep l = Ok (join sep strs))
  \/ (join_cells sep l = Raise TypeError /\ exists c, c ∈ l /\ ~ is_string c).
Proof.
  unfold join_cells. destruct (mapM as_str l) as [strs|] eqn:E.
  - left. exists strs. split; [by apply mapM_as_str_Some | done].
  - right. split; [done | by apply mapM_as_str_None].
Qed.

Lemma sorted_join_cases (s : gset cell) :
  (exists strs,
     elements s = Str <$> strs
     /\ and_then (sorted_cells s) (join_cells " ")
        = Ok (join " " (merge_sort str_le strs)))
  \/ (and_then (sorted_cells s) (join_cells " ") = Raise TypeError
      /\ exists c, c ∈ s /\ ~ is_string c).
Proof.
  unfold sorted_cells. destruct (mapM as_str (elements s)) as [strs|] eqn:E.
  - left. exists strs. split; [by apply mapM_as_str_Some|].
    simpl. unfold join_cells. by rewrite mapM_fmap_Some.
  - right. split.
    + destruct (forallb _ (elements s)); [|done].
      simpl. unfold join_cells. by rewrite E.
    + apply mapM_as_str_None in E as (c & Hin & Hc).
      exists c. split; [by apply elem_of_elements | done].
Qed.

Lemma elem_of_py_set_difference (a b : gset cell) (c : cell) :
  c ∈ py_set_difference a b <-> c ∈ a /\ (c ∈ b -> c = NaN).
Proof.
  unfold py_set_difference.
  rewrite !elem_of_difference, elem_of_singleton. split.
  - intros [Ha Hb]. split; [done|]. intros Hcb.
    destruct (decide (c = NaN)); [done|]. exfalso. by apply Hb.
  - intros [Ha Hb]. split; [done|]. intros [Hcb Hn]. by apply Hn, Hb.
Qed.

(** The message is built when all the mtypes are strings, and [TypeError]
    is raised as soon as one of them is not. *)
Lemma congruency_message_cases (t c : gset cell) :
  (exists d1 d2 s1 s2,
     elements (py_set_difference t c) = Str <$> d1
     /\ elements (py_set_difference c t) = Str <$> d2
     /\ elements t = Str <$> s1
     /\ elements c = Str <$> s2
     /\ congruency_message t c
        = Ok (congruency_text (join " " d1) (join " " d2)
                (join " " (merge_sort str_le s1))
                (join " " (merge_sort str_le s2))))
  \/ (congruency_message t c = Raise TypeError
      /\ exists x, (x ∈ t \/ x ∈ c) /\ ~ is_string x).
Proof.
  unfold congruency_message.
  destruct (join_cells_cases " " (elements (py_set_difference t c)))
    as [(d1 & Hd1 & ->)|[-> (x & Hx & Hn)]].
  2:{ right. split; [done|]. exists x. split; [|done].
      apply elem_of_elements, elem_of_py_set_difference in Hx as [Hx _]. by left. }
  simpl.
  destruct (join_cells_cases " " (elements (py_set_difference c t)))
    as [(d2 & Hd2 & ->)|[-> (x & Hx & Hn)]].
  2:{ right. split; [done|]. exists x. split; [|done].
      apply elem_of_elements, elem_of_py_set_difference in Hx as [Hx _]. by right. }
  simpl.
  destruct (sorted_join_cases t) as [(s1 & Hs1 & ->)|[-> (x & Hx & Hn)]].
  2:{ right. split; [done|]. exists x. split; [by left | done]. }
  simpl.
  destruct (sorted_join_cases c) as [(s2 & Hs2 & ->)|[-> (x & Hx & Hn)]].
  2:{ right. split; [done|]. exists x. split; [by right | done]. }
  simpl. left. by exists d1, d2, s1, s2.
Qed.

Lemma mentions_joined (sep s : string) (strs : list string) (l : list cell) :
  l = Str <$> strs -> Str s ∈ l -> mentions (join sep strs) s.
Proof.
  intros -> Hin. apply mentions_join.
  apply list_elem_of_fmap in Hin as (s' & [= ->] & Hin). exact Hin.
Qed.

Lemma mentions_only_taxonomy (a b c d s : string) :
  mentions a s -> mentions (congruency_text a b c d) s.
Proof.
  intros H. unfold congruency_text.
  do 3 apply mentions_app_r. by apply mentions_app_l.
Qed.

Lemma mentions_only_composition (a b c d s : string) :
  mentions b s -> mentions (congruency_text a b c d) s.
Proof.
  intros H. unfold congruency_text.
  do 6 apply mentions_app_r. by apply mentions_app_l.
Qed.

Lemma mentions_all_taxonomy (a b c d s : string) :
  mentions c s -> mentions (congruency_text a b c d) s.
Proof.
  intros H. unfold congruency_text.
  do 9 apply mentions_app_r. by apply mentions_app_l.
Qed.

Lemma mentions_all_composition (a b c d s : string) :
  mentions d s -> mentions (congruency_text a b c d) s.
Proof.
  intros H. unfold congruency_text. by do 12 apply mentions_app_r.
Qed.

(** ** The congruency check *)

(** C3 (the code departs from the claim). A taxonomy file that names an
    mtype [NA] is read with a missing value in its [mtype] column, and one
    that names its mtypes by digits is read with integers.  Both pass
    [_validate_mtype_taxonomy]; their sets of mtypes differ from those of
    the composition; and [_check_taxonomy_composition_congruency] raises
    [TypeError] while building its message, not [AtlasDensitiesError].
    [create_from_composition] then ends with that [TypeError]. *)
Theorem congruency_on_non_string_mtype_raises_type_error :
  (_validate_mtype_taxonomy Scenario.taxonomy_na = Ok tt
   /\ column_values Scenario.taxonomy_na "mtype"
      <> list_to_set (mtype Scenario.composition_na)
   /\ _check_taxonomy_composition_congruency Scenario.taxonomy_na
        Scenario.composition_na = Raise TypeError)
  /\ (_validate_mtype_taxonomy Scenario.taxonomy_digits = Ok tt
      /\ column_values Scenario.taxonomy_digits "mtype"
         <> list_to_set (mtype Scenario.composition_digits)
      /\ _check_taxonomy_composition_congruency Scenario.taxonomy_digits
           Scenario.composition_digits = Raise TypeError)
  /\ create_from_composition Scenario.extended_world "annotation.nrrd"
       "hierarchy.json" "metadata.json" "excitatory.nrrd" "taxonomy_na.tsv"
       "composition_na.yaml" "out" [] = (Raise TypeError, []).
Proof.
  split; [|split; [|vm_compute; reflexivity]];
    (split; [vm_compute; reflexivity|]); (split; [|vm_compute; reflexivity]).
  - intros Heq.
    assert (H : NaN ∈ column_values Scenario.taxonomy_na "mtype") by compute_done.
    rewrite Heq in H. revert H. compute_done.
  - intros Heq.
    assert (H : Int 1 ∈ column_values Scenario.taxonomy_digits "mtype")
      by compute_done.
    rewrite Heq in H. revert H. compute_done.
Qed.

(** X20. On a taxonomy with one column labelled [mtype], when the mtypes
    of both tables are strings, [_check_taxonomy_composition_congruency]
    raises [AtlasDensitiesError] exactly when the two sets of mtypes
    differ and returns otherwise, and the message it raises names every
    mtype found in only one of the two tables. *)
Theorem congruency_on_string_mtypes_raises_iff
    (taxonomy : DataFrame) (composition : Composition) :
  NoDup (columns taxonomy) -> "mtype" ∈ columns taxonomy ->
  (forall c, c ∈ column_values taxonomy "mtype" \/ c ∈ mtype composition ->
     is_string c) ->
  let taxonomy_mtypes := column_values taxonomy "mtype" in
  let composition_mtypes : gset cell := list_to_set (mtype composition) in
  let outcome := _check_taxonomy_composition_congruency taxonomy composition in
  (is_atlas_densities_error outcome <-> taxonomy_mtypes <> composition_mtypes)
  /\ (outcome = Ok tt <-> taxonomy_mtypes = composition_mtypes)
  /\ (forall msg, outcome = Raise (AtlasDensitiesError msg) ->
      forall s,
        (Str s ∈ taxonomy_mtypes /\ Str s ∉ composition_mtypes)
        \/ (Str s ∈ composition_mtypes /\ Str s ∉ taxonomy_mtypes) ->
        mentions msg s).
Proof.
  intros Hnd Hin Hstr. cbv zeta.
  destruct (getitem_unique taxonomy "mtype" Hnd Hin) as (cells & Hget & Hvals).
  rewrite Hvals in *.
  unfold _check_taxonomy_composition_congruency. rewrite Hget. cbv zeta.
  unfold set_of_item.
  set (t := (list_to_set cells : gset cell)) in *.
  set (c := (list_to_set (mtype composition) : gset cell)).
  assert (Hnan : NaN ∉ t).
  { intros H. destruct (Hstr NaN (or_introl H)) as [s Hs]. discriminate Hs. }
  unfold py_set_eq. rewrite (bool_decide_eq_true_2 _ Hnan), andb_true_r.
  case_bool_decide as Heq; simpl.
  - split; [|split].
    + split; [intros [msg Hr]; discriminate | done].
    + done.
    + intros msg Hr. discriminate.
  - destruct (congruency_message_cases t c)
      as [(d1 & d2 & s1 & s2 & Hd1 & Hd2 & _ & _ & ->)|[_ (x & Hx & Hn)]].
    2:{ exfalso. apply Hn, Hstr. destruct Hx as [Hx|Hx]; [by left|].
        right. by apply elem_of_list_to_set in Hx. }
    split; [|split].
    + split; [done | intros _; eexists; reflexivity].
    + split; [discriminate | done].
    + intros msg [= <-] s [[H1 H2]|[H1 H2]].
      * apply mentions_only_taxonomy, (mentions_joined _ _ _ _ Hd1).
        apply elem_of_elements, elem_of_py_set_difference. by split.
      * apply mentions_only_composition, (mentions_joined _ _ _ _ Hd2).
        apply elem_of_elements, elem_of_py_set_difference. by split.
Qed.

Lemma congruency_on_string_mtypes_raises_iff_witness :
  NoDup (columns Sample.taxonomy_ab)
  /\ "mtype" ∈ columns Sample.taxonomy_ab
  /\ is_atlas_densities_error
       (_check_taxonomy_composition_congruency Sample.taxonomy_ab
          (composition_of_entries Sample.composition_entries_ac)).
Proof.
  assert (Hnd : NoDup (columns Sample.taxonomy_ab)) by compute_done.
  assert (Hin : "mtype" ∈ columns Sample.taxonomy_ab) by compute_done.
  split; [exact Hnd|]. split; [exact Hin|].
  apply (congruency_on_string_mtypes_raises_iff Sample.taxonomy_ab
           (composition_of_entries Sample.composition_entries_ac) Hnd Hin).
  - intros c [Hc|Hc].
    + assert (Hvals : column_values Sample.taxonomy_ab "mtype"
                      = list_to_set [Str "A"; Str "B"]) by (vm_compute; reflexivity).
      rewrite Hvals in Hc. apply elem_of_list_to_set in Hc.
      rewrite !elem_of_cons, elem_of_nil in Hc.
      destruct Hc as [->|[->|[]]]; eexists; reflexivity.
    + simpl in Hc. rewrite !elem_of_cons, elem_of_nil in Hc.
      destruct Hc as [->|[->|[]]]; eexists; reflexivity.
  - vm_compute. discriminate.
Defined.

Lemma validate_mtype_taxonomy_only_exc_witness :
  NoDup (columns Sample.taxonomy_only_exc)
  /\ column_values Sample.taxonomy_only_exc "sClass" = {[Str "EXC"]}
  /\ is_atlas_densities_error (_validate_mtype_taxonomy Sample.taxonomy_only_exc).
Proof.
  assert (Hnd : NoDup (columns Sample.taxonomy_only_exc)) by compute_done.
  assert (Hexc : column_values Sample.taxonomy_only_exc "sClass" = {[Str "EXC"]})
    by (vm_compute; reflexivity).
  split; [exact Hnd|]. split; [exact Hexc|].
  apply (validate_mtype_taxonomy_raises_iff Sample.taxonomy_only_exc Hnd).
  left. exact Hexc.
Defined.

(** ** The density validators *)

Lemma validate_density_all_close (field : VoxelData) :
  Forall within_default_tolerance_of_zero (data (raw field)) ->
  _validate_density field
  = Raise (AtlasDensitiesError "Density with zeros everywhere encountered.").
Proof.
  intros H%allclose_zero. unfold _validate_density. now rewrite H.
Qed.

(** C7. A strictly negative value is a fatal domain error:
    [_validate_density] raises [AtlasDensitiesError] as soon as one voxel
    of the field is below zero, and [_validate_neuronal_mtype_composition]
    does as soon as one density of the composition is. *)
Theorem negative_density_raises (field : VoxelData) (composition : Composition) :
  (Exists is_negative (data (raw field)) ->
   is_atlas_densities_error (_validate_density field))
  /\ (Exists is_negative (density composition) ->
      is_atlas_densities_error (_validate_neuronal_mtype_composition composition)).
Proof.
  split; intros Hneg%any_lt_true.
  - unfold _validate_density. rewrite Hneg.
    destruct (allclose (raw field) zero); eexists; reflexivity.
  - unfold _validate_neuronal_mtype_composition. rewrite Hneg.
    eexists; reflexivity.
Qed.

Lemma negative_density_raises_witness :
  (Exists is_negative (data (raw Sample.with_negative))
   /\ _validate_density Sample.with_negative
      = Raise (AtlasDensitiesError "Density with negative values encountered."))
  /\ (Exists is_negative
        (density (composition_of_entries Sample.composition_entries_negative))
      /\ is_atlas_densities_error
           (_validate_neuronal_mtype_composition
              (composition_of_entries Sample.composition_entries_negative))).
Proof.
  assert (H1 : Exists is_negative (data (raw Sample.with_negative))).
  { apply Exists_cons_tl, Exists_cons_hd. reflexivity. }
  assert (H2 : Exists is_negative
                 (density (composition_of_entries Sample.composition_entries_negative))).
  { apply Exists_cons_tl, Exists_cons_hd. reflexivity. }
  pose proof (negative_density_raises Sample.with_negative
                (composition_of_entries Sample.composition_entries_negative))
    as [Hfield Hcomp].
  split; split; [exact H1 | reflexivity | exact H2 | exact (Hcomp H2)].
Defined.

(** C9. The all-zero test of [_validate_density] is a tolerance test: a
    field whose values are all strictly positive and at most [1e-8] is
    rejected with "Density with zeros everywhere encountered." although
    none of its values equals zero. *)
Theorem tiny_positive_density_raises (field : VoxelData) :
  Forall (fun x => is_positive x /\ within_default_tolerance_of_zero x)
    (data (raw field)) ->
  _validate_density field
  = Raise (AtlasDensitiesError "Density with zeros everywhere encountered.")
  /\ Forall (fun x => ~ is_zero x) (data (raw field)).
Proof.
  intros H. split.
  - apply validate_density_all_close.
    eapply Forall_impl; [exact H|]. now intros x [_ Hx].
  - eapply Forall_impl; [exact H|]. intros x [Hpos _] Hz.
    apply is_positive_not_zero in Hpos. unfold is_zero in Hz. congruence.
Qed.

Lemma tiny_positive_density_raises_witness :
  Forall (fun x => is_positive x /\ within_default_tolerance_of_zero x)
    (data (raw Sample.tiny))
  /\ _validate_density Sample.tiny
     = Raise (AtlasDensitiesError "Density with zeros everywhere encountered.")
  /\ Forall (fun x => ~ is_zero x) (data (raw Sample.tiny)).
Proof.
  assert (H : Forall (fun x => is_positive x /\ within_default_tolerance_of_zero x)
                (data (raw Sample.tiny))).
  { repeat constructor. }
  split; [exact H|]. exact (tiny_positive_density_raises Sample.tiny H).
Defined.

(** ** The command monad *)

Lemma bind_lift_ok {A B} (a : A) (k : A -> M B) (t : list event) :
  bind (lift (Ok a)) k t = k a t.
Proof. reflexivity. Qed.

Lemma bind_lift_raise {A B} (e : exn) (k : A -> M B) (t : list event) :
  bind (lift (Raise e)) k t = (Raise e, t).
Proof. reflexivity. Qed.

Lemma bind_unfold {A B} (m : M A) (k : A -> M B) (t : list event) :
  bind m k t
  = match m t with
    | (Ok a, t') => k a t'
    | (Raise e, t') => (Raise e, t')
    end.
Proof. reflexivity. Qed.

Lemma bind_emit {B} (ev : event) (k : unit -> M B) (t : list event) :
  bind (emit ev) k t = k tt (t ++ [ev])%list.
Proof. reflexivity. Qed.

(** ** Runs of [create_from_composition] *)

Lemma write_densities_run (X : Externals) (annotation : VoxelData)
    (output_dir : string) (yielded : list (string * ndarray))
    (t : list event) :
  exists written,
    written `prefix_of` yielded
    /\ (write_densities X annotation output_dir yielded t).2
       = (t ++ (save_event annotation output_dir <$> written))%list
    /\ ((write_densities X annotation output_dir yielded t).1 = Ok tt ->
        written = yielded).
Proof.
  revert t. induction yielded as [|[m d] rest IH]; intros t.
  - exists []. simpl. rewrite app_nil_r. by repeat split.
  - simpl. unfold bind at 1, lift at 1.
    destruct (save_nrrd X (with_data annotation d)
                (Path output_dir (m ++ "_densities.nrrd"))) as [[]|e].
    + unfold bind at 1, emit at 1.
      destruct (IH (t ++ [SaveNrrd (Path output_dir (m ++ "_densities.nrrd"))
                            (with_data annotation d)])%list)
        as (written & Hpre & Ht & Hok).
      exists ((m, d) :: written). split; [|split].
      * by apply prefix_cons.
      * rewrite Ht, <- app_assoc. reflexivity.
      * intros H. by rewrite (Hok H).
    + exists []. simpl. rewrite app_nil_r.
      split; [apply prefix_nil|]. split; [done | discriminate].
Qed.

Lemma saved_save_events (annotation : VoxelData) (output_dir : string)
    (l : list (string * ndarray)) :
  saved (save_event annotation output_dir <$> l)
  = density_file annotation output_dir <$> l.
Proof.
  induction l as [|y l IH]; [done|].
  rewrite !fmap_cons. unfold saved in *. simpl. by f_equal.
Qed.

(** A run either raises before anything happens, or it has loaded and
    validated all its inputs and goes on from the call of the core. *)
Lemma create_from_composition_run (X : Externals)
    (annotation_path hierarchy_path metadata_path excitatory_neuron_density_path
     taxonomy_path composition_path output_dir : string) (t : list event) :
  (exists e,
     create_from_composition X annotation_path hierarchy_path metadata_path
       excitatory_neuron_density_path taxonomy_path composition_path
       output_dir t = (Raise e, t))
  \/ (exists annotation region_map metadata excitatory taxonomy composition,
        load_nrrd X annotation_path = Ok annotation
        /\ load_region_map X hierarchy_path = Ok region_map
        /\ load_metadata X metadata_path = Ok metadata
        /\ load_nrrd X excitatory_neuron_density_path = Ok excitatory
        /\ _load_neuronal_mtype_taxonomy X taxonomy_path = Ok taxonomy
        /\ _load_neuronal_mtype_composition X composition_path = Ok composition
        /\ _validate_density excitatory = Ok tt
        /\ _validate_mtype_taxonomy taxonomy = Ok tt
        /\ _validate_neuronal_mtype_composition composition = Ok tt
        /\ assert_properties X [annotation; excitatory] = Ok tt
        /\ _check_taxonomy_composition_congruency taxonomy composition = Ok tt
        /\ create_from_composition X annotation_path hierarchy_path metadata_path
             excitatory_neuron_density_path taxonomy_path composition_path
             output_dir t
           = write_and_finish X annotation output_dir
               (_create_from_composition X annotation region_map metadata
                  (raw excitatory) taxonomy composition)
               (t ++ [CoreFromComposition annotation (raw excitatory)
                        taxonomy composition])%list).
Proof.
  unfold create_from_composition.
  destruct (load_nrrd X annotation_path) as [annotation|e] eqn:H1;
    [rewrite bind_lift_ok | left; eauto].
  destruct (load_region_map X hierarchy_path) as [region_map|e] eqn:H2;
    [rewrite bind_lift_ok | left; eauto].
  destruct (load_metadata X metadata_path) as [metadata|e] eqn:H3;
    [rewrite bind_lift_ok | left; eauto].
  destruct (load_nrrd X excitatory_neuron_density_path) as [excitatory|e] eqn:H4;
    [rewrite bind_lift_ok | left; eauto].
  destruct (_validate_density excitatory) as [[]|e] eqn:H5;
    [rewrite bind_lift_ok | left; eauto].
  destruct (_load_neuronal_mtype_taxonomy X taxonomy_path) as [taxonomy|e] eqn:H6;
    [rewrite bind_lift_ok | left; eauto].
  destruct (_validate_mtype_taxonomy taxonomy) as [[]|e] eqn:H7;
    [rewrite bind_lift_ok | left; eauto].
  destruct (_load_neuronal_mtype_composition X composition_path)
    as [composition|e] eqn:H8; [rewrite bind_lift_ok | left; eauto].
  destruct (_validate_neuronal_mtype_composition composition) as [[]|e] eqn:H9;
    [rewrite bind_lift_ok | left; eauto].
  destruct (assert_properties X [annotation; excitatory]) as [[]|e] eqn:H10;
    [rewrite bind_lift_ok | left; eauto].
  destruct (_check_taxonomy_composition_congruency taxonomy composition)
    as [[]|e] eqn:H11; [rewrite bind_lift_ok | left; eauto].
  rewrite bind_emit.
  right. exists annotation, region_map, metadata, excitatory, taxonomy, composition.
  by repeat (split; [assumption|]).
Qed.

Lemma raises_not_ok {A} (r : result A) (a : A) : raises r -> r = Ok a -> False.
Proof. intros [e ->]. discriminate. Qed.

(** C4. In [create_from_composition] the five checks come before the
    call of the core and before any file is written: once the inputs are
    loaded, if the density check, the taxonomy check, the composition
    check, the grid check or the congruency check raises, the command
    raises and its trace is unchanged, so no density file exists for any
    mtype. *)
Theorem validation_failure_writes_nothing (X : Externals)
    (annotation_path hierarchy_path metadata_path excitatory_neuron_density_path
     taxonomy_path composition_path output_dir : string) (t : list event)
    (annotation excitatory : VoxelData) (taxonomy : DataFrame)
    (composition : Composition) :
  load_nrrd X annotation_path = Ok annotation ->
  load_nrrd X excitatory_neuron_density_path = Ok excitatory ->
  _load_neuronal_mtype_taxonomy X taxonomy_path = Ok taxonomy ->
  _load_neuronal_mtype_composition X composition_path = Ok composition ->
  raises (_validate_density excitatory)
  \/ raises (_validate_mtype_taxonomy taxonomy)
  \/ raises (_validate_neuronal_mtype_composition composition)
  \/ raises (assert_properties X [annotation; excitatory])
  \/ raises (_check_taxonomy_composition_congruency taxonomy composition) ->
  exists e,
    create_from_composition X annotation_path hierarchy_path metadata_path
      excitatory_neuron_density_path taxonomy_path composition_path
      output_dir t = (Raise e, t).
Proof.
  intros Hann Hexc Htax Hcomp Hfail.
  destruct (create_from_composition_run X annotation_path hierarchy_path
              metadata_path excitatory_neuron_density_path taxonomy_path
              composition_path output_dir t)
    as [Hraise|(a & rm & md & x & tx & c & Ha & _ & _ & Hx & Htx & Hc
                & V1 & V2 & V3 & V4 & V5 & _)]; [exact Hraise|].
  rewrite Hann in Ha. rewrite Hexc in Hx. rewrite Htax in Htx. rewrite Hcomp in Hc.
  injection Ha as <-. injection Hx as <-. injection Htx as <-. injection Hc as <-.
  exfalso.
  destruct Hfail as [H|[H|[H|[H|H]]]]; eapply raises_not_ok; eauto.
Qed.

(** C6. [_validate_density] raises [AtlasDensitiesError] on a field that
    is zero everywhere; hence [create_from_composition], given such an
    excitatory field, raises with its trace unchanged (no call of the core,
    no file), and what it raises is that error as soon as the annotation,
    the hierarchy and the metadata could be loaded. *)
Theorem all_zero_density_raises (X : Externals)
    (annotation_path hierarchy_path metadata_path excitatory_neuron_density_path
     taxonomy_path composition_path output_dir : string) (t : list event)
    (excitatory : VoxelData) :
  load_nrrd X excitatory_neuron_density_path = Ok excitatory ->
  Forall is_zero (data (raw excitatory)) ->
  _validate_density excitatory
  = Raise (AtlasDensitiesError "Density with zeros everywhere encountered.")
  /\ exists e,
       create_from_composition X annotation_path hierarchy_path metadata_path
         excitatory_neuron_density_path taxonomy_path composition_path
         output_dir t = (Raise e, t)
       /\ (succeeds (load_nrrd X annotation_path) ->
           succeeds (load_region_map X hierarchy_path) ->
           succeeds (load_metadata X metadata_path) ->
           e = AtlasDensitiesError "Density with zeros everywhere encountered.").
Proof.
  intros Hexc Hzero.
  assert (Hval : _validate_density excitatory
                 = Raise (AtlasDensitiesError
                            "Density with zeros everywhere encountered.")).
  { apply validate_density_all_close.
    eapply Forall_impl; [exact Hzero|]. apply is_zero_within_tolerance. }
  split; [exact Hval|].
  unfold create_from_composition.
  destruct (load_nrrd X annotation_path) as [annotation|e] eqn:Hann.
  2:{ exists e. split; [reflexivity|]. intros [a Ha]. discriminate. }
  rewrite bind_lift_ok.
  destruct (load_region_map X hierarchy_path) as [region_map|e].
  2:{ exists e. split; [reflexivity|]. intros _ [a Ha]. discriminate. }
  rewrite bind_lift_ok.
  destruct (load_metadata X metadata_path) as [metadata|e].
  2:{ exists e. split; [reflexivity|]. intros _ _ [a Ha]. discriminate. }
  rewrite bind_lift_ok, Hexc, bind_lift_ok, Hval, bind_lift_raise.
  eexists. split; reflexivity.
Qed.

(** C10. Every file [create_from_composition] writes is named
    [<mtype>_densities.nrrd] in the output directory and holds
    [annotation.with_data(density)], hence the voxel dimensions and the
    offset of the annotation; the files written are those of the pairs the
    generator yielded, in order, and of all of them when the command
    returns. *)
Theorem written_density_files_carry_annotation_grid (X : Externals)
    (annotation_path hierarchy_path metadata_path excitatory_neuron_density_path
     taxonomy_path composition_path output_dir : string) (t t' : list event)
    (annotation : VoxelData) (r : result unit) :
  load_nrrd X annotation_path = Ok annotation ->
  create_from_composition X annotation_path hierarchy_path metadata_path
    excitatory_neuron_density_path taxonomy_path composition_path
    output_dir t = (r, t') ->
  exists events,
    t' = (t ++ events)%list
    /\ Forall (written_with_annotation_grid annotation output_dir) (saved events)
    /\ (events = [] \/
        exists region_map metadata excitatory taxonomy composition written,
          load_region_map X hierarchy_path = Ok region_map
          /\ load_metadata X metadata_path = Ok metadata
          /\ load_nrrd X excitatory_neuron_density_path = Ok excitatory
          /\ _load_neuronal_mtype_taxonomy X taxonomy_path = Ok taxonomy
          /\ _load_neuronal_mtype_composition X composition_path = Ok composition
          /\ written `prefix_of`
               (_create_from_composition X annotation region_map metadata
                  (raw excitatory) taxonomy composition).1
          /\ saved events = density_file annotation output_dir <$> written
          /\ (r = Ok tt ->
              written = (_create_from_composition X annotation region_map
                           metadata (raw excitatory) taxonomy composition).1)).
Proof.
  intros Hann Hrun.
  destruct (create_from_composition_run X annotation_path hierarchy_path
              metadata_path excitatory_neuron_density_path taxonomy_path
              composition_path output_dir t)
    as [[e He]|(a & rm & md & x & tx & c & Ha & Hrm & Hmd & Hx & Htx & Hc
                & _ & _ & _ & _ & _ & Heq)].
  - rewrite He in Hrun. injection Hrun as <- <-.
    exists []. rewrite app_nil_r. split; [done|]. split; [constructor | by left].
  - rewrite Hann in Ha. injection Ha as <-.
    rewrite Heq in Hrun. clear Heq.
    destruct (_create_from_composition X annotation rm md (raw x) tx c)
      as [yielded failure] eqn:Hgen.
    unfold write_and_finish, bind in Hrun.
    destruct (write_densities_run X annotation output_dir yielded
                (t ++ [CoreFromComposition annotation (raw x) tx c])%list)
      as (written & Hpre & Ht & Hok).
    destruct (write_densities X annotation output_dir yielded
                (t ++ [CoreFromComposition annotation (raw x) tx c])%list)
      as [r1 t1]. simpl in Ht, Hok. subst t1.
    assert (Ht' : t' = (t ++ CoreFromComposition annotation (raw x) tx c
                          :: (save_event annotation output_dir <$> written))%list
                  /\ (r = Ok tt -> r1 = Ok tt)).
    { destruct r1 as [[]|e1].
      - destruct failure as [e|]; injection Hrun as <- <-;
          (split; [by rewrite <- app_assoc | done]).
      - injection Hrun as <- <-. split; [by rewrite <- app_assoc | done]. }
    destruct Ht' as [-> Hr].
    assert (Hsaved : saved (CoreFromComposition annotation (raw x) tx c
                            :: (save_event annotation output_dir <$> written))
                     = density_file annotation output_dir <$> written).
    { apply saved_save_events. }
    eexists. split; [reflexivity|]. split.
    + rewrite Hsaved. apply Forall_fmap, Forall_forall.
      intros [m d] _. exists m, d. by repeat split.
    + right. exists rm, md, x, tx, c, written.
      rewrite Hgen. simpl.
      repeat (split; [assumption|]).
      intros Hrok. by apply Hok, Hr.
Qed.

(** ** Runs of [create_from_profile] and [create_from_probability_map] *)

Lemma load_optional_density_run (X : Externals) (config : gmap string string)
    (key : string) (voxeldata : list VoxelData) (t : list event) :
  load_optional_density X config key voxeldata t
  = match supplied_density X config key with
    | Ok d => (Ok (d, (voxeldata ++ option_list d)%list), t)
    | Raise e => (Raise e, t)
    end.
Proof.
  unfold load_optional_density, supplied_density.
  destruct (config !! key) as [file|].
  - by destruct (load_nrrd X file).
  - simpl. by rewrite app_nil_r.
Qed.

(** A run either raises before anything happens, or it has an inhibitory
    field, has passed the grid check on all its fields and calls the
    core. *)
Lemma create_from_profile_run (X : Externals)
    (annotation_path hierarchy_path metadata_path direction_vectors_path
     mtypes_config_path output_dir : string) (t : list event) :
  (exists e,
     create_from_profile X annotation_path hierarchy_path metadata_path
       direction_vectors_path mtypes_config_path output_dir t = (Raise e, t))
  \/ (exists config annotation direction_vectors inhibitory excitatory r,
        load_config X mtypes_config_path = Ok config
        /\ load_nrrd X annotation_path = Ok annotation
        /\ load_nrrd X direction_vectors_path = Ok direction_vectors
        /\ supplied_density X config "inhibitoryNeuronDensityPath" = Ok inhibitory
        /\ supplied_density X config "excitatoryNeuronDensityPath" = Ok excitatory
        /\ inhibitory <> None
        /\ assert_meta_properties X
             ([annotation; direction_vectors] ++ option_list inhibitory
              ++ option_list excitatory)%list = Ok tt
        /\ create_from_profile X annotation_path hierarchy_path metadata_path
             direction_vectors_path mtypes_config_path output_dir t
           = (r, (t ++ [CoreFromProfile annotation
                          (asarray_float32 X (raw direction_vectors))
                          output_dir excitatory inhibitory])%list)).
Proof.
  unfold create_from_profile.
  destruct (load_config X mtypes_config_path) as [config|e] eqn:Hconfig;
    [rewrite bind_lift_ok | left; eauto].
  destruct (dict_getitem config "mtypeToProfileMapPath") as [map_path|e];
    [rewrite bind_lift_ok | left; eauto].
  destruct (dict_getitem config "layerSlicesPath") as [slices_path|e];
    [rewrite bind_lift_ok | left; eauto].
  destruct (dict_getitem config "densityProfilesDirPath") as [profiles_dir|e];
    [rewrite bind_lift_ok | left; eauto].
  destruct (profile_collection_load X map_path slices_path profiles_dir)
    as [collection|e]; [rewrite bind_lift_ok | left; eauto].
  destruct (load_metadata X metadata_path) as [metadata|e];
    [rewrite bind_lift_ok | left; eauto].
  destruct (load_region_map X hierarchy_path) as [region_map|e];
    [rewrite bind_lift_ok | left; eauto].
  destruct (load_nrrd X annotation_path) as [annotation|e] eqn:Hann;
    [rewrite bind_lift_ok | left; eauto].
  destruct (load_nrrd X direction_vectors_path) as [direction_vectors|e] eqn:Hdv;
    [rewrite bind_lift_ok | left; eauto].
  cbv zeta. rewrite bind_unfold, load_optional_density_run.
  destruct (supplied_density X config "inhibitoryNeuronDensityPath")
    as [inhibitory|e] eqn:Hinh; cbv beta iota; [|left; eauto].
  rewrite bind_unfold, load_optional_density_run.
  destruct (supplied_density X config "excitatoryNeuronDensityPath")
    as [excitatory|e] eqn:Hexc; cbv beta iota; [|left; eauto].
  destruct inhibitory as [inhibitory|]; [|left; eauto].
  replace (bool_decide (Some inhibitory = None)) with false
    by (symmetry; by apply bool_decide_eq_false).
  cbn [andb].
  destruct (assert_meta_properties X
              (([annotation; direction_vectors] ++ option_list (Some inhibitory))
               ++ option_list excitatory)%list) as [[]|e] eqn:Hgrid;
    [rewrite bind_lift_ok | left; eauto].
  rewrite bind_emit. unfold lift.
  right. exists config, annotation, direction_vectors, (Some inhibitory), excitatory.
  eexists. repeat (split; [done || exact Hgrid|]). reflexivity.
Qed.


(** Without the inhibitory key the command never reaches the core,
    whether or not an excitatory field is supplied. *)
Lemma create_from_profile_needs_inhibitory (X : Externals)
    (annotation_path hierarchy_path metadata_path direction_vectors_path
     mtypes_config_path output_dir : string) (t : list event)
    (config : gmap string string) :
  load_config X mtypes_config_path = Ok config ->
  config !! "inhibitoryNeuronDensityPath" = None ->
  exists e,
    create_from_profile X annotation_path hierarchy_path metadata_path
      direction_vectors_path mtypes_config_path output_dir t = (Raise e, t).
Proof.
  intros Hconfig Hnone.
  destruct (create_from_profile_run X annotation_path hierarchy_path
              metadata_path direction_vectors_path mtypes_config_path
              output_dir t)
    as [H|(c & a & dv & inh & exc & r & Hc & _ & _ & Hinh & _ & Hsome & _)];
    [exact H|].
  rewrite Hconfig in Hc. injection Hc as <-.
  unfold supplied_density in Hinh. rewrite Hnone in Hinh.
  injection Hinh as <-. done.
Qed.

(** C1 (the code departs from the claim). With a configuration that
    supplies the excitatory field alone, [create_from_profile] raises "No
    neuron density files were provided" and never reaches the core,
    although one of the two fields was supplied; with the inhibitory field
    alone it goes on to the core, and with neither it raises.  The test
    that guards the error reads the inhibitory field twice. *)
Theorem create_from_profile_excitatory_only_raises :
  Sample.config_files !! "excitatory_only.yaml"
  = Some (list_to_map (("excitatoryNeuronDensityPath", "excitatory.nrrd")
                       :: Sample.profile_keys))
  /\ create_from_profile Sample.world "annotation.nrrd" "hierarchy.json"
       "metadata.json" "direction_vectors.nrrd" "excitatory_only.yaml" "out" []
     = (Raise (AtlasDensitiesError no_density_message), [])
  /\ create_from_profile Sample.world "annotation.nrrd" "hierarchy.json"
       "metadata.json" "direction_vectors.nrrd" "inhibitory_only.yaml" "out" []
     = (Ok tt,
        [CoreFromProfile Sample.annotation (raw Sample.direction_vectors)
           "out" None (Some Sample.inhibitory)])
  /\ create_from_profile Sample.world "annotation.nrrd" "hierarchy.json"
       "metadata.json" "direction_vectors.nrrd" "neither.yaml" "out" []
     = (Raise (AtlasDensitiesError no_density_message), []).
Proof. repeat split; vm_compute; reflexivity. Qed.

(** ** The marker fields of [create_from_probability_map] *)

Lemma elem_of_dict_setitem {V} (key k : string) (v w : V) (d : list (string * V)) :
  (k, w) ∈ dict_setitem key v d -> (k, w) = (key, v) \/ (k, w) ∈ d.
Proof.
  induction d as [|[k' v'] d IH]; simpl.
  - intros ->%list_elem_of_singleton. by left.
  - case_decide as Hk; subst.
    + intros [->|Hin]%elem_of_cons; [by left | right; by apply elem_of_cons; right].
    + intros [->|Hin]%elem_of_cons; [right; by apply elem_of_cons; left|].
      destruct (IH Hin) as [->|Hd]; [by left | right; by apply elem_of_cons; right].
Qed.

Lemma dict_setitem_keys {V} (key k : string) (v : V) (d : list (string * V)) :
  k = key \/ k ∈ d.*1 -> k ∈ (dict_setitem key v d).*1.
Proof.
  induction d as [|[k' v'] d IH]; simpl.
  - intros [->|Hin]; [by apply list_elem_of_singleton | inversion Hin].
  - case_decide as Hk; subst; simpl.
    + intros [->|Hin]; [by apply elem_of_cons; left | exact Hin].
    + intros [->|[->|Hin]%elem_of_cons].
      * apply elem_of_cons; right. apply IH. by left.
      * by apply elem_of_cons; left.
      * apply elem_of_cons; right. apply IH. by right.
Qed.

(** The dict of marker fields holds a field for every marker name, and
    every field it holds was loaded from a file given for its name. *)
Lemma load_markers_fields (X : Externals) (marker : list (string * string))
    (acc densities : list (string * VoxelData)) :
  load_markers X marker acc = Ok densities ->
  (forall name, name ∈ marker.*1 \/ name ∈ acc.*1 -> name ∈ densities.*1)
  /\ (forall name field, (name, field) ∈ densities ->
      (name, field) ∈ acc
      \/ exists file, (name, file) ∈ marker /\ load_nrrd X file = Ok field).
Proof.
  revert acc. induction marker as [|[molecular_type file] rest IH]; intros acc; simpl.
  - intros [= <-]. split.
    + intros name [Hin|Hin]; [inversion Hin | exact Hin].
    + intros name field Hin. by left.
  - destruct (load_nrrd X file) as [d|e] eqn:Hload; [|discriminate].
    intros Hrest. destruct (IH _ Hrest) as [Hkeys Hfields]. split.
    + intros name [[->|Hin]%elem_of_cons|Hin]; apply Hkeys.
      * right. apply dict_setitem_keys. by left.
      * by left.
      * right. apply dict_setitem_keys. by right.
    + intros name field Hin.
      destruct (Hfields name field Hin) as [Hacc|(f & Hf & Hok)].
      * apply elem_of_dict_setitem in Hacc as [[= -> ->]|Hacc]; [|by left].
        right. exists file. split; [by apply elem_of_cons; left | exact Hload].
      * right. exists f. split; [by apply elem_of_cons; right | exact Hok].
Qed.

(** ** The grid checks *)




(** ** The commands on the sample atlas *)

Lemma validation_failure_writes_nothing_witness :
  raises (_validate_mtype_taxonomy Sample.taxonomy_only_exc)
  /\ exists e,
       create_from_composition Sample.world "annotation.nrrd" "hierarchy.json"
         "metadata.json" "excitatory.nrrd" "taxonomy_only_exc.tsv"
         "composition.yaml" "out" [] = (Raise e, []).
Proof.
  assert (Hbad : raises (_validate_mtype_taxonomy Sample.taxonomy_only_exc)).
  { destruct (_validate_mtype_taxonomy Sample.taxonomy_only_exc) as [[]|e] eqn:E;
      [vm_compute in E; discriminate | by exists e]. }
  split; [exact Hbad|].
  apply (validation_failure_writes_nothing Sample.world "annotation.nrrd"
           "hierarchy.json" "metadata.json" "excitatory.nrrd"
           "taxonomy_only_exc.tsv" "composition.yaml" "out" []
           Sample.annotation Sample.excitatory Sample.taxonomy_only_exc
           (composition_of_entries Sample.composition_entries));
    [vm_compute; reflexivity .. | right; left; exact Hbad].
Defined.

Lemma all_zero_density_raises_witness :
  Forall is_zero (data (raw Sample.all_zero))
  /\ create_from_composition Sample.world "annotation.nrrd" "hierarchy.json"
       "metadata.json" "all_zero.nrrd" "taxonomy.tsv" "composition.yaml" "out" []
     = (Raise (AtlasDensitiesError "Density with zeros everywhere encountered."),
        []).
Proof.
  assert (Hzero : Forall is_zero (data (raw Sample.all_zero))).
  { repeat constructor. }
  split; [exact Hzero|].
  destruct (all_zero_density_raises Sample.world "annotation.nrrd"
              "hierarchy.json" "metadata.json" "all_zero.nrrd" "taxonomy.tsv"
              "composition.yaml" "out" [] Sample.all_zero)
    as (_ & e & Hrun & He); [vm_compute; reflexivity | exact Hzero |].
  rewrite Hrun. rewrite He; [reflexivity | eexists; vm_compute; reflexivity ..].
Defined.

Lemma written_density_files_carry_annotation_grid_witness :
  create_from_composition Sample.world "annotation.nrrd" "hierarchy.json"
    "metadata.json" "excitatory.nrrd" "taxonomy.tsv" "composition.yaml" "out" []
  = (Ok tt, Sample.composition_trace)
  /\ exists events,
       Sample.composition_trace = ([] ++ events)%list
       /\ length (saved events) = 3%nat
       /\ Forall (written_with_annotation_grid Sample.annotation "out")
            (saved events).
Proof.
  assert (Hrun :
    create_from_composition Sample.world "annotation.nrrd" "hierarchy.json"
      "metadata.json" "excitatory.nrrd" "taxonomy.tsv" "composition.yaml" "out" []
    = (Ok tt, Sample.composition_trace)) by (vm_compute; reflexivity).
  split; [exact Hrun|].
  destruct (written_density_files_carry_annotation_grid Sample.world
              "annotation.nrrd" "hierarchy.json" "metadata.json" "excitatory.nrrd"
              "taxonomy.tsv" "composition.yaml" "out" [] Sample.composition_trace
              Sample.annotation (Ok tt))
    as (events & Hev & Hall & _); [vm_compute; reflexivity | exact Hrun |].
  exists events. split; [exact Hev|]. split; [|exact Hall].
  simpl in Hev. by subst events.
Defined.

(** ** More on the density validators *)

Lemma validate_density_accepts (field : VoxelData) :
  ~ Forall within_default_tolerance_of_zero (data (raw field)) ->
  ~ Exists is_negative (data (raw field)) ->
  _validate_density field = Ok tt.
Proof.
  intros Hoff Hneg. unfold _validate_density.
  destruct (allclose (raw field) zero) eqn:Ec.
  - exfalso. by apply Hoff, allclose_zero.
  - destruct (any_lt (data (raw field)) zero) eqn:En; [|reflexivity].
    exfalso. by apply Hneg, any_lt_true.
Qed.

(** X1. The three outcomes of [_validate_density]: the all-zero error
    exactly when every value is within [1e-8] of zero (which holds of an
    empty field), the negative-value error exactly when that is not so and
    some value is below zero, and acceptance exactly when some value is
    off zero and none is below it.  The all-zero error takes precedence
    over the negative-value error. *)
Theorem validate_density_outcome (field : VoxelData) :
  (_validate_density field
   = Raise (AtlasDensitiesError "Density with zeros everywhere encountered.")
   <-> Forall within_default_tolerance_of_zero (data (raw field)))
  /\ (_validate_density field
      = Raise (AtlasDensitiesError "Density with negative values encountered.")
      <-> ~ Forall within_default_tolerance_of_zero (data (raw field))
          /\ Exists is_negative (data (raw field)))
  /\ (_validate_density field = Ok tt
      <-> ~ Forall within_default_tolerance_of_zero (data (raw field))
          /\ ~ Exists is_negative (data (raw field))).
Proof.
  pose proof (allclose_zero (raw field)) as Hclose.
  pose proof (any_lt_true (data (raw field))) as Hneg.
  unfold _validate_density.
  destruct (allclose (raw field) zero) eqn:Ec.
  - assert (Hall : Forall within_default_tolerance_of_zero (data (raw field)))
      by (by apply Hclose).
    split; [|split]; split; try done; intros [Hn _]; done.
  - assert (Hnall : ~ Forall within_default_tolerance_of_zero (data (raw field))).
    { intros H%Hclose. discriminate. }
    destruct (any_lt (data (raw field)) zero) eqn:En.
    + assert (Hex : Exists is_negative (data (raw field))) by (by apply Hneg).
      split; [|split]; split; try done; intros [_ Hn]; done.
    + assert (Hnex : ~ Exists is_negative (data (raw field))).
      { intros H%Hneg. discriminate. }
      split; [|split]; split; try done; intros [_ Hn]; done.
Qed.

Lemma non_finite_off_zero (x : float64) :
  isfinite x = false -> ~ within_default_tolerance_of_zero x.
Proof.
  unfold within_default_tolerance_of_zero.
  destruct x as [s|s| |s m e]; try discriminate; intros _; simpl; discriminate.
Qed.

(** X2. [_validate_density] does not reject values that are not numbers:
    a field that holds a NaN or an infinity, and no value below zero, is
    accepted. *)
Theorem validate_density_accepts_non_finite (field : VoxelData) (x : float64) :
  x ∈ data (raw field) -> isfinite x = false ->
  ~ Exists is_negative (data (raw field)) ->
  _validate_density field = Ok tt.
Proof.
  intros Hin Hx Hneg.
  apply validate_density_accepts; [|exact Hneg].
  intros Hall. rewrite Forall_forall in Hall.
  by apply (non_finite_off_zero x Hx), Hall.
Qed.

Lemma validate_density_accepts_non_finite_witness :
  S754_nan ∈ data (raw Scenario.with_nan)
  /\ isfinite S754_nan = false
  /\ ~ Exists is_negative (data (raw Scenario.with_nan))
  /\ _validate_density Scenario.with_nan = Ok tt.
Proof.
  assert (Hin : S754_nan ∈ data (raw Scenario.with_nan)) by (simpl; apply elem_of_cons; by left).
  assert (Hneg : ~ Exists is_negative (data (raw Scenario.with_nan))).
  { intros H. apply Exists_cons in H as [H|H]; [discriminate H|].
    apply Exists_cons in H as [H|H]; [discriminate H | inversion H]. }
  split; [exact Hin|]. split; [reflexivity|]. split; [exact Hneg|].
  exact (validate_density_accepts_non_finite Scenario.with_nan S754_nan
           Hin eq_refl Hneg).
Defined.

(** X3. A composition loaded from the yaml entries passes
    [_validate_neuronal_mtype_composition] exactly when no entry has a
    density below zero, and is rejected with the composition error
    otherwise; entries whose densities are all zero are accepted, unlike an
    all-zero density field. *)
Theorem loaded_composition_accepted_iff (entries : list CompositionEntry) :
  (_validate_neuronal_mtype_composition (composition_of_entries entries) = Ok tt
   <-> Forall (fun e => ~ is_negative (entry_density e)) entries)
  /\ (_validate_neuronal_mtype_composition (composition_of_entries entries)
      = Raise (AtlasDensitiesError
                 "Negative density values encountered in composition.")
      <-> Exists (fun e => is_negative (entry_density e)) entries)
  /\ (Forall (fun e => is_zero (entry_density e)) entries ->
      _validate_neuronal_mtype_composition (composition_of_entries entries)
      = Ok tt).
Proof.
  assert (Hex : any_lt (density (composition_of_entries entries)) zero = true
                <-> Exists (fun e => is_negative (entry_density e)) entries).
  { rewrite any_lt_true. simpl.
    change (map entry_density entries) with (entry_density <$> entries).
    by rewrite Exists_fmap. }
  assert (Hall : Forall (fun e => ~ is_negative (entry_density e)) entries
                 <-> ~ Exists (fun e => is_negative (entry_density e)) entries).
  { split.
    - apply Forall_not_Exists.
    - apply not_Exists_Forall. intros e. unfold is_negative. apply _. }
  unfold _validate_neuronal_mtype_composition.
  destruct (any_lt (density (composition_of_entries entries)) zero) eqn:E.
  - assert (Hneg : Exists (fun e => is_negative (entry_density e)) entries)
      by (by apply Hex).
    split; [|split].
    + split; [discriminate | intros H%Hall; done].
    + done.
    + intros Hz. exfalso. apply Exists_exists in Hneg as (e & He & Hn).
      rewrite Forall_forall in Hz. specialize (Hz e He).
      apply is_zero_inv in Hz as [s Hs]. unfold is_negative in Hn.
      rewrite Hs in Hn. by destruct s.
  - assert (Hnneg : ~ Exists (fun e => is_negative (entry_density e)) entries).
    { intros H%Hex. discriminate. }
    split; [|split].
    + split; [intros _; by apply Hall | done].
    + split; [discriminate | done].
    + done.
Qed.

(** ** More on the taxonomy and congruency checks *)

Lemma getitem_present (df : DataFrame) (key : string) :
  key ∈ columns df -> exists x, getitem df key = Ok x.
Proof.
  intros Hin. unfold getitem.
  destruct (select key df) as [|c [|c' cs]] eqn:Hsel; eauto.
  exfalso. apply list_elem_of_fmap in Hin as ([k cells] & -> & Hc).
  eapply (filter_nil_not_elem_of _ _ _ Hsel); [|exact Hc]. reflexivity.
Qed.

Lemma getitem_raises (df : DataFrame) (key : string) (e : exn) :
  getitem df key = Raise e -> e = KeyError key.
Proof.
  unfold getitem. destruct (select key df) as [|c [|c' cs]]; [|discriminate..].
  by intros [= <-].
Qed.

Lemma validated_columns (taxonomy : DataFrame) :
  _validate_mtype_taxonomy taxonomy = Ok tt ->
  forall key, key ∈ columns taxonomy <-> key ∈ ["mtype"; "mClass"; "sClass"].
Proof.
  unfold _validate_mtype_taxonomy. case_bool_decide as Hcols; [discriminate|].
  intros _ key.
  rewrite <- (elem_of_list_to_set (C := gset string) key (columns taxonomy)).
  rewrite <- Hcols. unfold expected_columns.
  rewrite !elem_of_union, !elem_of_singleton, !elem_of_cons, elem_of_nil.
  tauto.
Qed.

(** The congruency check once the [mtype] column is found. *)
Lemma congruency_cases (taxonomy : DataFrame) (composition : Composition)
    (col : item) :
  getitem taxonomy "mtype" = Ok col ->
  _check_taxonomy_composition_congruency taxonomy composition = Ok tt
  \/ (exists s1 s2 msg,
        elements (set_of_item col) = Str <$> s1
        /\ elements (list_to_set (mtype composition) : gset cell) = Str <$> s2
        /\ (forall s, s ∈ s1 \/ s ∈ s2 -> mentions msg s)
        /\ _check_taxonomy_composition_congruency taxonomy composition
           = Raise (AtlasDensitiesError msg))
  \/ (_check_taxonomy_composition_congruency taxonomy composition
      = Raise TypeError
      /\ exists c, (c ∈ set_of_item col \/ c ∈ mtype composition)
                   /\ ~ is_string c).
Proof.
  intros Hget. unfold _check_taxonomy_composition_congruency. rewrite Hget.
  cbv zeta.
  destruct (py_set_eq (set_of_item col) (list_to_set (mtype composition)));
    simpl; [by left|]. right.
  destruct (congruency_message_cases (set_of_item col)
              (list_to_set (mtype composition)))
    as [(d1 & d2 & s1 & s2 & _ & _ & Hs1 & Hs2 & ->)|[-> (x & Hx & Hn)]].
  - left. eexists s1, s2, _. split; [done|]. split; [done|].
    split; [|reflexivity]. intros s [Hs|Hs].
    + apply mentions_all_taxonomy, mentions_join.
      by rewrite (merge_sort_Permutation str_le s1).
    + apply mentions_all_composition, mentions_join.
      by rewrite (merge_sort_Permutation str_le s2).
  - right. split; [done|]. exists x. split; [|done].
    destruct Hx as [Hx|Hx]; [by left|]. right. by apply elem_of_list_to_set in Hx.
Qed.

(** X4. [_check_taxonomy_composition_congruency] looks at the mtypes of
    the composition as a set: against a given taxonomy, two compositions
    with the same mtypes, in any order, with any repetitions, densities
    and layers, both pass, or both raise the domain error, or both raise
    the same other kind of error.  (The wording of the message may list
    the mtypes in another order.) *)
Theorem congruency_ignores_order_and_repeats (taxonomy : DataFrame)
    (c1 c2 : Composition) :
  (forall m, m ∈ mtype c1 <-> m ∈ mtype c2) ->
  outcome_of (_check_taxonomy_composition_congruency taxonomy c1)
  = outcome_of (_check_taxonomy_composition_congruency taxonomy c2).
Proof.
  intros Hsame.
  assert (Heq : (list_to_set (mtype c1) : gset cell) = list_to_set (mtype c2)).
  { apply set_eq. intros m. rewrite !elem_of_list_to_set. apply Hsame. }
  unfold _check_taxonomy_composition_congruency. by rewrite Heq.
Qed.

Lemma congruency_ignores_order_and_repeats_witness :
  (forall m, m ∈ mtype Scenario.repeated <-> m ∈ mtype Scenario.plain)
  /\ outcome_of (_check_taxonomy_composition_congruency Sample.taxonomy_ab
                   Scenario.repeated)
     = outcome_of (_check_taxonomy_composition_congruency Sample.taxonomy_ab
                     Scenario.plain).
Proof.
  assert (Hsame : forall m, m ∈ mtype Scenario.repeated <-> m ∈ mtype Scenario.plain).
  { intros m. simpl. rewrite !elem_of_cons, elem_of_nil. tauto. }
  split; [exact Hsame|].
  exact (congruency_ignores_order_and_repeats Sample.taxonomy_ab
           Scenario.repeated Scenario.plain Hsame).
Defined.

(** X5. A taxonomy with distinct column labels that passes
    [_validate_mtype_taxonomy] has exactly the three columns [mtype],
    [mClass] and [sClass], in some order, and its [sClass] column holds at
    least one [EXC] row, at least one [INH] row and nothing else. *)
Theorem validated_taxonomy_shape (taxonomy : DataFrame) :
  NoDup (columns taxonomy) ->
  _validate_mtype_taxonomy taxonomy = Ok tt ->
  columns taxonomy ≡ₚ ["mtype"; "mClass"; "sClass"]
  /\ exists cells,
       ("sClass", cells) ∈ taxonomy
       /\ Str "EXC" ∈ cells /\ Str "INH" ∈ cells
       /\ forall c, c ∈ cells -> c = Str "EXC" \/ c = Str "INH".
Proof.
  intros Hnd Hok. pose proof (validated_columns taxonomy Hok) as Hcols.
  split.
  - apply NoDup_Permutation; [exact Hnd | compute_done | exact Hcols].
  - assert (Hin : "sClass" ∈ columns taxonomy).
    { apply Hcols. rewrite !elem_of_cons. tauto. }
    destruct (select_unique taxonomy "sClass" Hnd Hin) as [cells Hsel].
    exists cells. split.
    { assert (H : ("sClass", cells) ∈ select "sClass" taxonomy)
        by (rewrite Hsel; apply elem_of_cons; by left).
      unfold select in H. by apply list_elem_of_filter in H as [_ H]. }
    unfold _validate_mtype_taxonomy in Hok.
    case_bool_decide as Hc; [discriminate|].
    unfold getitem in Hok. rewrite Hsel in Hok. simpl in Hok.
    case_bool_decide as Hs; [discriminate|].
    assert (Hmem : forall c, c ∈ cells <-> c = Str "EXC" \/ c = Str "INH").
    { intros c.
      rewrite <- (elem_of_list_to_set (C := gset cell) c cells), <- Hs.
      unfold expected_sclasses. by rewrite elem_of_union, !elem_of_singleton. }
    split; [apply Hmem; by left|]. split; [apply Hmem; by right|].
    intros c. apply Hmem.
Qed.

Lemma validated_taxonomy_shape_witness :
  NoDup (columns Sample.taxonomy)
  /\ _validate_mtype_taxonomy Sample.taxonomy = Ok tt
  /\ columns Sample.taxonomy ≡ₚ ["mtype"; "mClass"; "sClass"]
  /\ exists cells,
       ("sClass", cells) ∈ Sample.taxonomy
       /\ Str "EXC" ∈ cells /\ Str "INH" ∈ cells
       /\ forall c, c ∈ cells -> c = Str "EXC" \/ c = Str "INH".
Proof.
  assert (Hnd : NoDup (columns Sample.taxonomy)) by compute_done.
  assert (Hok : _validate_mtype_taxonomy Sample.taxonomy = Ok tt)
    by (vm_compute; reflexivity).
  split; [exact Hnd|]. split; [exact Hok|].
  exact (validated_taxonomy_shape Sample.taxonomy Hnd Hok).
Defined.

(** X6. [_validate_mtype_taxonomy] never fails on the lookup of the
    [sClass] column: on any dataframe it either returns or raises
    [AtlasDensitiesError], because the column check comes first. *)
Theorem validate_mtype_taxonomy_never_key_error (taxonomy : DataFrame) :
  _validate_mtype_taxonomy taxonomy = Ok tt
  \/ is_atlas_densities_error (_validate_mtype_taxonomy taxonomy).
Proof.
  unfold _validate_mtype_taxonomy.
  case_bool_decide as Hcols; [right; eexists; reflexivity|].
  assert (Hin : "sClass" ∈ columns taxonomy).
  { apply (elem_of_list_to_set (C := gset string)). rewrite <- Hcols.
    unfold expected_columns. rewrite !elem_of_union, !elem_of_singleton. tauto. }
  destruct (getitem_present taxonomy "sClass" Hin) as [col ->].
  simpl. case_bool_decide; [right; eexists; reflexivity | by left].
Qed.

(** X7. On a taxonomy without a column labelled [mtype],
    [_check_taxonomy_composition_congruency] raises [KeyError], not the
    domain error, whatever the composition. *)
Theorem congruency_without_mtype_column (taxonomy : DataFrame)
    (composition : Composition) :
  "mtype" ∉ columns taxonomy ->
  _check_taxonomy_composition_congruency taxonomy composition
  = Raise (KeyError "mtype").
Proof.
  intros Habsent. unfold _check_taxonomy_composition_congruency, getitem.
  by rewrite (select_absent taxonomy "mtype" Habsent).
Qed.

Lemma congruency_without_mtype_column_witness :
  ("mtype" ∉ columns Scenario.taxonomy_without_mtype)
  /\ _check_taxonomy_composition_congruency Scenario.taxonomy_without_mtype
       Scenario.plain = Raise (KeyError "mtype").
Proof.
  assert (H : "mtype" ∉ columns Scenario.taxonomy_without_mtype) by compute_done.
  split; [exact H|].
  exact (congruency_without_mtype_column Scenario.taxonomy_without_mtype
           Scenario.plain H).
Defined.

(** X8. After [_validate_mtype_taxonomy] has accepted a taxonomy, the
    lookup of the [mtype] column in
    [_check_taxonomy_composition_congruency] cannot fail: the check
    returns, or raises [AtlasDensitiesError], or raises [TypeError], and
    the last only when an mtype of the taxonomy or of the composition is
    not a string. *)
Theorem congruency_after_validation (taxonomy : DataFrame)
    (composition : Composition) :
  _validate_mtype_taxonomy taxonomy = Ok tt ->
  (_check_taxonomy_composition_congruency taxonomy composition = Ok tt
   \/ is_atlas_densities_error
        (_check_taxonomy_composition_congruency taxonomy composition)
   \/ _check_taxonomy_composition_congruency taxonomy composition
      = Raise TypeError)
  /\ (_check_taxonomy_composition_congruency taxonomy composition
      = Raise TypeError ->
      exists col c,
        getitem taxonomy "mtype" = Ok col
        /\ (c ∈ set_of_item col \/ c ∈ mtype composition)
        /\ ~ is_string c).
Proof.
  intros Hok.
  assert (Hin : "mtype" ∈ columns taxonomy).
  { apply (validated_columns taxonomy Hok). apply elem_of_cons. by left. }
  destruct (getitem_present taxonomy "mtype" Hin) as [col Hcol].
  destruct (congruency_cases taxonomy composition col Hcol)
    as [H|[(s1 & s2 & msg & _ & _ & _ & H)|[H (c & Hc & Hn)]]].
  - split; [by left|]. rewrite H. discriminate.
  - split; [right; left; by exists msg|]. rewrite H. discriminate.
  - split; [by right; right|]. intros _. by exists col, c.
Qed.

Lemma congruency_after_validation_witness :
  _validate_mtype_taxonomy Scenario.taxonomy_na = Ok tt
  /\ _check_taxonomy_composition_congruency Scenario.taxonomy_na
       Scenario.composition_na = Raise TypeError
  /\ exists col c,
       getitem Scenario.taxonomy_na "mtype" = Ok col
       /\ (c ∈ set_of_item col \/ c ∈ mtype Scenario.composition_na)
       /\ ~ is_string c.
Proof.
  assert (Hok : _validate_mtype_taxonomy Scenario.taxonomy_na = Ok tt)
    by (vm_compute; reflexivity).
  assert (Hte : _check_taxonomy_composition_congruency Scenario.taxonomy_na
                  Scenario.composition_na = Raise TypeError)
    by (vm_compute; reflexivity).
  split; [exact Hok|]. split; [exact Hte|].
  exact (proj2 (congruency_after_validation Scenario.taxonomy_na
                  Scenario.composition_na Hok) Hte).
Defined.

(** X9. The message of the congruency error lists both tables in full:
    when the error is raised every mtype of the taxonomy column and of the
    composition is a string, and the message names each of them, not only
    those found on one side. *)
Theorem congruency_message_names_all_mtypes (taxonomy : DataFrame)
    (composition : Composition) (msg : string) :
  _check_taxonomy_composition_congruency taxonomy composition
  = Raise (AtlasDensitiesError msg) ->
  exists col,
    getitem taxonomy "mtype" = Ok col
    /\ forall m, m ∈ set_of_item col \/ m ∈ mtype composition ->
                 exists s, m = Str s /\ mentions msg s.
Proof.
  intros Hraise.
  destruct (getitem taxonomy "mtype") as [col|e] eqn:Hget.
  2:{ unfold _check_taxonomy_composition_congruency in Hraise.
      rewrite Hget in Hraise. apply getitem_raises in Hget. congruence. }
  exists col. split; [reflexivity|].
  destruct (congruency_cases taxonomy composition col Hget)
    as [H|[(s1 & s2 & msg' & Hs1 & Hs2 & Hall & H)|[H _]]]; [congruence | | congruence].
  rewrite H in Hraise. injection Hraise as ->.
  intros m [Hm|Hm].
  - apply elem_of_elements in Hm. rewrite Hs1 in Hm.
    apply list_elem_of_fmap in Hm as (s & -> & Hs).
    exists s. split; [reflexivity|]. apply Hall. by left.
  - apply (elem_of_list_to_set (C := gset cell)), elem_of_elements in Hm.
    rewrite Hs2 in Hm. apply list_elem_of_fmap in Hm as (s & -> & Hs).
    exists s. split; [reflexivity|]. apply Hall. by right.
Qed.

Lemma congruency_message_names_all_mtypes_witness :
  exists msg,
    _check_taxonomy_composition_congruency Sample.taxonomy_ab
      (composition_of_entries Sample.composition_entries_ac)
    = Raise (AtlasDensitiesError msg)
    /\ mentions msg "A" /\ mentions msg "B" /\ mentions msg "C".
Proof.
  destruct (_check_taxonomy_composition_congruency Sample.taxonomy_ab
              (composition_of_entries Sample.composition_entries_ac))
    as [[]|[msg|k| |o]] eqn:E; try (vm_compute in E; discriminate E).
  exists msg. split; [reflexivity|].
  destruct (congruency_message_names_all_mtypes Sample.taxonomy_ab
              (composition_of_entries Sample.composition_entries_ac) msg E)
    as (col & Hcol & Hall).
  vm_compute in Hcol. injection Hcol as <-.
  assert (Hnamed : forall s,
            Str s ∈ set_of_item (Series [Str "A"; Str "B"])
            \/ Str s ∈ mtype (composition_of_entries Sample.composition_entries_ac) ->
            mentions msg s).
  { intros s Hs. destruct (Hall (Str s) Hs) as (s' & [= <-] & Hm). exact Hm. }
  repeat split; apply Hnamed.
  - right. simpl. apply elem_of_cons. by left.
  - left. unfold set_of_item. apply elem_of_list_to_set, elem_of_cons. right.
    apply elem_of_cons. by left.
  - right. simpl. apply elem_of_cons. right. apply elem_of_cons. by left.
Defined.

(** ** More on the loops of [create_from_probability_map] *)

Lemma dict_setitem_elem_of {V} (key k : string) (v w : V) (d : list (string * V)) :
  NoDup d.*1 ->
  (k, w) ∈ dict_setitem key v d
  <-> (k = key /\ w = v) \/ (k <> key /\ (k, w) ∈ d).
Proof.
  induction d as [|[k' v'] d IH]; intros Hnd; simpl.
  - rewrite list_elem_of_singleton, elem_of_nil. split.
    + intros [= -> ->]. by left.
    + intros [[-> ->]|[_ []]]. reflexivity.
  - rewrite fmap_cons in Hnd. apply NoDup_cons in Hnd as [Hfresh Hnd].
    simpl in Hfresh. specialize (IH Hnd).
    assert (Hkeys : forall x, (k, x) ∈ d -> k ∈ d.*1).
    { intros x Hx. apply list_elem_of_fmap. by exists (k, x). }
    case_decide as Hk.
    + subst k'. rewrite !elem_of_cons. split.
      * intros [[= -> ->]|Hin]; [by left|].
        right. split; [|by right]. intros ->. apply Hfresh. by eapply Hkeys.
      * intros [[-> ->]|[Hne [[= -> ->]|Hin]]]; [by left | done | by right].
    + rewrite !elem_of_cons, IH. split.
      * intros [[= -> ->]|[[-> ->]|[Hne Hin]]].
        -- right. split; [congruence | by left].
        -- by left.
        -- right. split; [done | by right].
      * intros [[-> ->]|[Hne [[= -> ->]|Hin]]].
        -- right. by left.
        -- by left.
        -- right. right. by split.
Qed.

Lemma dict_setitem_NoDup {V} (key : string) (v : V) (d : list (string * V)) :
  NoDup d.*1 -> NoDup (dict_setitem key v d).*1.
Proof.
  induction d as [|[k' v'] d IH]; intros Hnd; simpl.
  - apply NoDup_singleton.
  - rewrite fmap_cons in Hnd. apply NoDup_cons in Hnd as [Hfresh Hnd].
    simpl in Hfresh. case_decide as Hk.
    + rewrite fmap_cons. by apply NoDup_cons.
    + rewrite fmap_cons. apply NoDup_cons. split; [|by apply IH].
      simpl. intros Hin. apply list_elem_of_fmap in Hin as ([k w] & Hkw & Hin).
      simpl in Hkw. subst k.
      apply dict_setitem_elem_of in Hin as [[-> _]|[_ Hin]]; [done | | done].
      apply Hfresh, list_elem_of_fmap. by exists (k', w).
Qed.

Lemma load_markers_run (X : Externals) (marker : list (string * string))
    (acc densities : list (string * VoxelData)) :
  load_markers X marker acc = Ok densities ->
  NoDup acc.*1 ->
  NoDup densities.*1
  /\ forall name field,
       (name, field) ∈ densities
       <-> match last_file marker name with
           | Some file => load_nrrd X file = Ok field
           | None => (name, field) ∈ acc
           end.
Proof.
  revert acc. induction marker as [|[k f] rest IH]; intros acc; simpl.
  - intros [= <-] Hnd. by split.
  - destruct (load_nrrd X f) as [v|e] eqn:Hload; [|discriminate].
    intros Hrest Hnd.
    destruct (IH _ Hrest (dict_setitem_NoDup k v acc Hnd)) as [Hnd' Hfields].
    split; [exact Hnd'|]. intros name field. rewrite Hfields.
    destruct (last_file rest name) as [later|]; [done|].
    rewrite (dict_setitem_elem_of k name v field acc Hnd).
    case_decide as Hk.
    + subst name. rewrite Hload. split.
      * intros [[_ ->]|[Hne _]]; done.
      * intros [= ->]. by left.
    + split.
      * intros [[-> _]|[_ Hin]]; done.
      * intros Hin. right. split; [congruence | done].
Qed.

(** X10. In the dict of marker fields of [create_from_probability_map] a
    name occurs once, and its field is the one loaded from the file given
    last for that name: a repeated [--marker] name silently overrides the
    earlier ones. *)
Theorem load_markers_last_wins (X : Externals) (marker : list (string * string))
    (densities : list (string * VoxelData)) :
  load_markers X marker [] = Ok densities ->
  NoDup densities.*1
  /\ forall name field,
       (name, field) ∈ densities
       <-> exists file,
             last_file marker name = Some file /\ load_nrrd X file = Ok field.
Proof.
  intros Hload.
  destruct (load_markers_run X marker [] densities Hload) as [Hnd Hfields];
    [constructor|].
  split; [exact Hnd|]. intros name field. rewrite Hfields.
  destruct (last_file marker name) as [file|].
  - split; [intros H; by exists file | by intros (f & [= <-] & H)].
  - split; [intros H; inversion H | by intros (f & [=] & _)].
Qed.

Lemma load_markers_last_wins_witness :
  load_markers Sample.world
    [("pv", "inhibitory.nrrd"); ("sst", "all_zero.nrrd"); ("pv", "excitatory.nrrd")]
    []
  = Ok [("pv", Sample.excitatory); ("sst", Sample.all_zero)]
  /\ forall field,
       ("pv", field) ∈ [("pv", Sample.excitatory); ("sst", Sample.all_zero)]
       <-> exists file,
             last_file [("pv", "inhibitory.nrrd"); ("sst", "all_zero.nrrd");
                        ("pv", "excitatory.nrrd")] "pv" = Some file
             /\ load_nrrd Sample.world file = Ok field.
Proof.
  assert (Hload :
    load_markers Sample.world
      [("pv", "inhibitory.nrrd"); ("sst", "all_zero.nrrd"); ("pv", "excitatory.nrrd")]
      []
    = Ok [("pv", Sample.excitatory); ("sst", Sample.all_zero)])
    by (vm_compute; reflexivity).
  split; [exact Hload|]. intros field.
  apply (load_markers_last_wins Sample.world _ _ Hload).
Defined.

(** X11. The dict comprehension over [--marker] succeeds exactly when
    every file given loads, including a file whose field is overridden by
    a later option of the same name. *)
Theorem load_markers_succeeds_iff (X : Externals)
    (marker : list (string * string)) (acc : list (string * VoxelData)) :
  succeeds (load_markers X marker acc)
  <-> Forall (fun m => succeeds (load_nrrd X m.2)) marker.
Proof.
  revert acc. induction marker as [|[k f] rest IH]; intros acc; simpl.
  - split; [constructor | by exists acc].
  - rewrite Forall_cons. simpl.
    destruct (load_nrrd X f) as [v|e].
    + rewrite IH. split; [intros H; split; [by exists v | done] | by intros [_ H]].
    + split; [intros [d Hd]; discriminate | intros [[v Hv] _]; discriminate].
Qed.

(** X12. The loop over [--probability-map] returns the maps of all the
    files, in the order given, exactly when each file can be read and
    passes [check_probability_map_sanity]. *)
Theorem load_probability_maps_ok_iff (X : Externals) (files : list string)
    (maps : list (ProbabilityMap X)) :
  load_probability_maps X files = Ok maps
  <-> Forall2 (fun file loaded =>
                 read_probability_map X file = Ok loaded
                 /\ succeeds (check_probability_map_sanity X loaded))
        files maps.
Proof.
  revert maps. induction files as [|file rest IH]; intros maps; simpl.
  - split; [intros [= <-]; constructor | intros ->%Forall2_nil_inv_l; done].
  - destruct (read_probability_map X file) as [loaded|e] eqn:Hread.
    2:{ split; [discriminate|].
        intros (m & ms' & [Hm _] & _)%Forall2_cons_inv_l. congruence. }
    destruct (check_probability_map_sanity X loaded) as [u|e] eqn:Hcheck.
    2:{ split; [discriminate|].
        intros (m & ms' & [Hm [u Hu]] & _)%Forall2_cons_inv_l.
        rewrite Hread in Hm. injection Hm as <-. congruence. }
    destruct (load_probability_maps X rest) as [ms|e] eqn:Hrest.
    + split.
      * intros [= <-]. constructor; [|by apply IH].
        split; [done | by exists u].
      * intros (m & ms' & [Hm _] & Hms & ->)%Forall2_cons_inv_l.
        rewrite Hread in Hm. injection Hm as <-.
        apply IH in Hms. by injection Hms as <-.
    + split; [discriminate|].
      intros (m & ms' & _ & Hms & ->)%Forall2_cons_inv_l.
      apply IH in Hms. discriminate.
Qed.

(** ** More on [create_from_profile] and [create_from_probability_map] *)

(** X13. [create_from_profile] reads [mtypeToProfileMapPath],
    [layerSlicesPath] and [densityProfilesDirPath] from the configuration
    without a default: when one of them is missing the command raises
    [KeyError] for the first missing one, before anything else is loaded,
    and its trace is unchanged. *)
Theorem create_from_profile_missing_key (X : Externals)
    (annotation_path hierarchy_path metadata_path direction_vectors_path
     mtypes_config_path output_dir : string) (t : list event)
    (config : gmap string string) (key : string) :
  load_config X mtypes_config_path = Ok config ->
  first_missing_key config = Some key ->
  create_from_profile X annotation_path hierarchy_path metadata_path
    direction_vectors_path mtypes_config_path output_dir t
  = (Raise (KeyError key), t).
Proof.
  intros Hconfig Hmissing.
  unfold create_from_profile. rewrite Hconfig, bind_lift_ok.
  unfold first_missing_key, profile_config_keys in Hmissing. simpl in Hmissing.
  unfold dict_getitem.
  destruct (config !! "mtypeToProfileMapPath") as [p1|].
  2:{ injection Hmissing as <-. reflexivity. }
  rewrite bind_lift_ok.
  destruct (config !! "layerSlicesPath") as [p2|].
  2:{ injection Hmissing as <-. reflexivity. }
  rewrite bind_lift_ok.
  destruct (config !! "densityProfilesDirPath") as [p3|].
  2:{ injection Hmissing as <-. reflexivity. }
  discriminate Hmissing.
Qed.

Lemma create_from_profile_missing_key_witness :
  load_config Scenario.world "no_slices.yaml"
  = Ok (list_to_map [("mtypeToProfileMapPath", "mapping.tsv");
                     ("densityProfilesDirPath", "profiles");
                     ("inhibitoryNeuronDensityPath", "inhibitory.nrrd")])
  /\ create_from_profile Scenario.world "annotation.nrrd" "hierarchy.json"
       "metadata.json" "direction_vectors.nrrd" "no_slices.yaml" "out" []
     = (Raise (KeyError "layerSlicesPath"), []).
Proof.
  assert (Hconfig :
    load_config Scenario.world "no_slices.yaml"
    = Ok (list_to_map [("mtypeToProfileMapPath", "mapping.tsv");
                       ("densityProfilesDirPath", "profiles");
                       ("inhibitoryNeuronDensityPath", "inhibitory.nrrd")]))
    by (vm_compute; reflexivity).
  split; [exact Hconfig|].
  apply (create_from_profile_missing_key Scenario.world "annotation.nrrd"
           "hierarchy.json" "metadata.json" "direction_vectors.nrrd"
           "no_slices.yaml" "out" [] _ "layerSlicesPath" Hconfig).
  vm_compute. reflexivity.
Defined.

(** The part of [create_from_profile] that comes before the total density
    fields: configuration, profile collection, metadata, hierarchy,
    annotation and direction vectors. *)
Lemma create_from_profile_after_loading (X : Externals)
    (annotation_path hierarchy_path metadata_path direction_vectors_path
     mtypes_config_path output_dir : string) (t : list event)
    (config : gmap string string) (map_path slices_path profiles_dir : string)
    (collection : DensityProfileCollection X) (metadata : Metadata X)
    (region_map : RegionMap X) (annotation direction_vectors : VoxelData)
    (inhibitory excitatory : option VoxelData) :
  load_config X mtypes_config_path = Ok config ->
  config !! "mtypeToProfileMapPath" = Some map_path ->
  config !! "layerSlicesPath" = Some slices_path ->
  config !! "densityProfilesDirPath" = Some profiles_dir ->
  profile_collection_load X map_path slices_path profiles_dir = Ok collection ->
  load_metadata X metadata_path = Ok metadata ->
  load_region_map X hierarchy_path = Ok region_map ->
  load_nrrd X annotation_path = Ok annotation ->
  load_nrrd X direction_vectors_path = Ok direction_vectors ->
  supplied_density X config "inhibitoryNeuronDensityPath" = Ok inhibitory ->
  supplied_density X config "excitatoryNeuronDensityPath" = Ok excitatory ->
  create_from_profile X annotation_path hierarchy_path metadata_path
    direction_vectors_path mtypes_config_path output_dir t
  = match inhibitory with
    | None => (Raise (AtlasDensitiesError no_density_message), t)
    | Some _ =>
      match assert_meta_properties X
              ([annotation; direction_vectors] ++ option_list inhibitory
               ++ option_list excitatory)%list with
      | Raise e => (Raise e, t)
      | Ok _ =>
        (create_mtype_densities X collection annotation region_map metadata
           (asarray_float32 X (raw direction_vectors)) output_dir excitatory
           inhibitory,
         (t ++ [CoreFromProfile annotation
                  (asarray_float32 X (raw direction_vectors)) output_dir
                  excitatory inhibitory])%list)
      end
    end.
Proof.
  intros Hconfig H1 H2 H3 Hcoll Hmd Hrm Hann Hdv Hinh Hexc.
  unfold create_from_profile, dict_getitem.
  rewrite Hconfig, bind_lift_ok, H1, bind_lift_ok, H2, bind_lift_ok, H3,
    bind_lift_ok, Hcoll, bind_lift_ok, Hmd, bind_lift_ok, Hrm, bind_lift_ok,
    Hann, bind_lift_ok, Hdv, bind_lift_ok.
  cbv zeta. rewrite bind_unfold, load_optional_density_run, Hinh.
  cbv beta iota. rewrite bind_unfold, load_optional_density_run, Hexc.
  cbv beta iota. destruct inhibitory as [inhibitory|]; [|reflexivity].
  replace (bool_decide (Some inhibitory = None)) with false
    by (symmetry; by apply bool_decide_eq_false).
  cbn [andb].
  change (([annotation; direction_vectors] ++ option_list (Some inhibitory))
          ++ option_list excitatory)%list
    with ([annotation; direction_vectors] ++ option_list (Some inhibitory)
          ++ option_list excitatory)%list.
  destruct (assert_meta_properties X
              ([annotation; direction_vectors] ++ option_list (Some inhibitory)
               ++ option_list excitatory)%list) as [[]|e];
    [rewrite bind_lift_ok | reflexivity].
  by rewrite bind_emit.
Qed.

(** X14. Once its inputs are loaded, an inhibitory density is supplied
    and the grid check passes, [create_from_profile] calls the core once,
    with the annotation, the direction vectors as float32, the output
    directory and both total densities (the excitatory one possibly
    absent), and its outcome is the outcome of the core. *)
Theorem create_from_profile_reaches_core (X : Externals)
    (annotation_path hierarchy_path metadata_path direction_vectors_path
     mtypes_config_path output_dir : string) (t : list event)
    (config : gmap string string) (map_path slices_path profiles_dir : string)
    (collection : DensityProfileCollection X) (metadata : Metadata X)
    (region_map : RegionMap X) (annotation direction_vectors inhibitory : VoxelData)
    (excitatory : option VoxelData) :
  load_config X mtypes_config_path = Ok config ->
  config !! "mtypeToProfileMapPath" = Some map_path ->
  config !! "layerSlicesPath" = Some slices_path ->
  config !! "densityProfilesDirPath" = Some profiles_dir ->
  profile_collection_load X map_path slices_path profiles_dir = Ok collection ->
  load_metadata X metadata_path = Ok metadata ->
  load_region_map X hierarchy_path = Ok region_map ->
  load_nrrd X annotation_path = Ok annotation ->
  load_nrrd X direction_vectors_path = Ok direction_vectors ->
  supplied_density X config "inhibitoryNeuronDensityPath" = Ok (Some inhibitory) ->
  supplied_density X config "excitatoryNeuronDensityPath" = Ok excitatory ->
  assert_meta_properties X
    ([annotation; direction_vectors; inhibitory] ++ option_list excitatory)%list
  = Ok tt ->
  create_from_profile X annotation_path hierarchy_path metadata_path
    direction_vectors_path mtypes_config_path output_dir t
  = (create_mtype_densities X collection annotation region_map metadata
       (asarray_float32 X (raw direction_vectors)) output_dir excitatory
       (Some inhibitory),
     (t ++ [CoreFromProfile annotation
              (asarray_float32 X (raw direction_vectors)) output_dir
              excitatory (Some inhibitory)])%list).
Proof.
  intros Hconfig H1 H2 H3 Hcoll Hmd Hrm Hann Hdv Hinh Hexc Hgrid.
  rewrite (create_from_profile_after_loading X annotation_path hierarchy_path
             metadata_path direction_vectors_path mtypes_config_path output_dir
             t config map_path slices_path profiles_dir collection metadata
             region_map annotation direction_vectors (Some inhibitory) excitatory)
    by assumption.
  change ([annotation; direction_vectors] ++ option_list (Some inhibitory)
          ++ option_list excitatory)%list
    with ([annotation; direction_vectors; inhibitory] ++ option_list excitatory)%list.
  by rewrite Hgrid.
Qed.

Lemma create_from_profile_reaches_core_witness :
  create_from_profile Scenario.world "annotation.nrrd" "hierarchy.json"
    "metadata.json" "direction_vectors.nrrd" "both.yaml" "out" []
  = (Ok tt,
     [CoreFromProfile Sample.annotation (raw Sample.direction_vectors) "out"
        (Some Sample.excitatory) (Some Sample.inhibitory)]).
Proof.
  apply (create_from_profile_reaches_core Scenario.world "annotation.nrrd"
           "hierarchy.json" "metadata.json" "direction_vectors.nrrd" "both.yaml"
           "out" []
           (list_to_map (("inhibitoryNeuronDensityPath", "inhibitory.nrrd")
                         :: ("excitatoryNeuronDensityPath", "excitatory.nrrd")
                         :: Sample.profile_keys))
           "mapping.tsv" "layers.tsv" "profiles" tt tt tt
           Sample.annotation Sample.direction_vectors Sample.inhibitory
           (Some Sample.excitatory));
    vm_compute; reflexivity.
Defined.

(** X15. Once its inputs are loaded, [create_from_profile] raises the
    "No neuron density files were provided" error whenever the
    configuration has no [inhibitoryNeuronDensityPath], whether or not the
    excitatory density is supplied; the grid check is not run and the core
    is not called. *)
Theorem create_from_profile_without_inhibitory_raises (X : Externals)
    (annotation_path hierarchy_path metadata_path direction_vectors_path
     mtypes_config_path output_dir : string) (t : list event)
    (config : gmap string string) (map_path slices_path profiles_dir : string)
    (collection : DensityProfileCollection X) (metadata : Metadata X)
    (region_map : RegionMap X) (annotation direction_vectors : VoxelData)
    (excitatory : option VoxelData) :
  load_config X mtypes_config_path = Ok config ->
  config !! "mtypeToProfileMapPath" = Some map_path ->
  config !! "layerSlicesPath" = Some slices_path ->
  config !! "densityProfilesDirPath" = Some profiles_dir ->
  profile_collection_load X map_path slices_path profiles_dir = Ok collection ->
  load_metadata X metadata_path = Ok metadata ->
  load_region_map X hierarchy_path = Ok region_map ->
  load_nrrd X annotation_path = Ok annotation ->
  load_nrrd X direction_vectors_path = Ok direction_vectors ->
  config !! "inhibitoryNeuronDensityPath" = None ->
  supplied_density X config "excitatoryNeuronDensityPath" = Ok excitatory ->
  create_from_profile X annotation_path hierarchy_path metadata_path
    direction_vectors_path mtypes_config_path output_dir t
  = (Raise (AtlasDensitiesError no_density_message), t).
Proof.
  intros Hconfig H1 H2 H3 Hcoll Hmd Hrm Hann Hdv Hnone Hexc.
  rewrite (create_from_profile_after_loading X annotation_path hierarchy_path
             metadata_path direction_vectors_path mtypes_config_path output_dir
             t config map_path slices_path profiles_dir collection metadata
             region_map annotation direction_vectors None excitatory);
    try assumption; [reflexivity|].
  unfold supplied_density. by rewrite Hnone.
Qed.

Lemma create_from_profile_without_inhibitory_raises_witness :
  supplied_density Sample.world
    (list_to_map (("excitatoryNeuronDensityPath", "excitatory.nrrd")
                  :: Sample.profile_keys))
    "excitatoryNeuronDensityPath" = Ok (Some Sample.excitatory)
  /\ create_from_profile Sample.world "annotation.nrrd" "hierarchy.json"
       "metadata.json" "direction_vectors.nrrd" "excitatory_only.yaml" "out" []
     = (Raise (AtlasDensitiesError no_density_message), []).
Proof.
  split; [vm_compute; reflexivity|].
  apply (create_from_profile_without_inhibitory_raises Sample.world
           "annotation.nrrd" "hierarchy.json" "metadata.json"
           "direction_vectors.nrrd" "excitatory_only.yaml" "out" []
           (list_to_map (("excitatoryNeuronDensityPath", "excitatory.nrrd")
                         :: Sample.profile_keys))
           "mapping.tsv" "layers.tsv" "profiles" tt tt tt
           Sample.annotation Sample.direction_vectors (Some Sample.excitatory));
    vm_compute; reflexivity.
Defined.

(** X16. Once the probability maps, the hierarchy, the annotation and
    the marker fields are loaded and the grid check passes,
    [create_from_probability_map] calls the core once, with the raw array
    of each marker field under its name, and its outcome is the outcome of
    the core. *)
Theorem create_from_probability_map_reaches_core (X : Externals)
    (annotation_path hierarchy_path : string) (probability_map : list string)
    (marker : list (string * string)) (synapse_class output_dir : string)
    (n_jobs : Z) (t : list event) (maps : list (ProbabilityMap X))
    (region_map : RegionMap X) (annotation : VoxelData)
    (densities : list (string * VoxelData)) :
  load_probability_maps X probability_map = Ok maps ->
  load_region_map X hierarchy_path = Ok region_map ->
  load_nrrd X annotation_path = Ok annotation ->
  load_markers X marker [] = Ok densities ->
  assert_meta_properties X (annotation :: map snd densities) = Ok tt ->
  create_from_probability_map X annotation_path hierarchy_path probability_map
    marker synapse_class output_dir n_jobs t
  = (create_from_map X annotation region_map
       (map (fun kv => (kv.1, raw kv.2)) densities) maps synapse_class
       output_dir n_jobs,
     (t ++ [CoreFromMap annotation (map (fun kv => (kv.1, raw kv.2)) densities)
              synapse_class output_dir n_jobs])%list).
Proof.
  intros Hmaps Hrm Hann Hmarkers Hgrid.
  unfold create_from_probability_map.
  rewrite Hmaps, bind_lift_ok, Hrm, bind_lift_ok, Hann, bind_lift_ok,
    Hmarkers, bind_lift_ok.
  cbv zeta.
  change ([annotation] ++ map snd densities)%list
    with (annotation :: map snd densities).
  by rewrite Hgrid, bind_lift_ok, bind_emit.
Qed.

Lemma create_from_probability_map_reaches_core_witness :
  create_from_probability_map Sample.world "annotation.nrrd" "hierarchy.json"
    ["probability_map.csv"]
    [("pv", "inhibitory.nrrd"); ("sst", "excitatory.nrrd")] "INH" "out" 10 []
  = (Ok tt,
     [CoreFromMap Sample.annotation
        [("pv", raw Sample.inhibitory); ("sst", raw Sample.excitatory)]
        "INH" "out" 10]).
Proof.
  apply (create_from_probability_map_reaches_core Sample.world "annotation.nrrd"
           "hierarchy.json" ["probability_map.csv"]
           [("pv", "inhibitory.nrrd"); ("sst", "excitatory.nrrd")] "INH" "out"
           10%Z [] [tt] tt Sample.annotation
           [("pv", Sample.inhibitory); ("sst", Sample.excitatory)]);
    vm_compute; reflexivity.
Defined.

(** ** More on the writing loop of [create_from_composition] *)

Lemma write_densities_all_saved (X : Externals) (annotation : VoxelData)
    (output_dir : string) (yielded : list (string * ndarray)) (t : list event) :
  (forall y, y ∈ yielded ->
     save_nrrd X (density_file annotation output_dir y).2
       (density_file annotation output_dir y).1 = Ok tt) ->
  write_densities X annotation output_dir yielded t
  = (Ok tt, (t ++ (save_event annotation output_dir <$> yielded))%list).
Proof.
  revert t. induction yielded as [|[m d] rest IH]; intros t Hsave.
  - simpl. by rewrite app_nil_r.
  - simpl.
    pose proof (Hsave (m, d) ltac:(apply elem_of_cons; by left)) as Hmd.
    unfold density_file in Hmd. simpl in Hmd.
    rewrite Hmd, bind_lift_ok, bind_emit, IH.
    + by rewrite <- app_assoc.
    + intros y Hy. apply Hsave, elem_of_cons. by right.
Qed.

Lemma write_densities_failed_save (X : Externals) (annotation : VoxelData)
    (output_dir : string) (before after : list (string * ndarray))
    (y : string * ndarray) (e : exn) (t : list event) :
  (forall z, z ∈ before ->
     save_nrrd X (density_file annotation output_dir z).2
       (density_file annotation output_dir z).1 = Ok tt) ->
  save_nrrd X (density_file annotation output_dir y).2
    (density_file annotation output_dir y).1 = Raise e ->
  write_densities X annotation output_dir (before ++ y :: after) t
  = (Raise e, (t ++ (save_event annotation output_dir <$> before))%list).
Proof.
  revert t. induction before as [|[m d] rest IH]; intros t Hsave Hfail.
  - destruct y as [m d]. unfold density_file in Hfail. simpl in Hfail.
    simpl. rewrite Hfail, bind_lift_raise. by rewrite app_nil_r.
  - simpl.
    pose proof (Hsave (m, d) ltac:(apply elem_of_cons; by left)) as Hmd.
    unfold density_file in Hmd. simpl in Hmd.
    rewrite Hmd, bind_lift_ok, bind_emit, IH.
    + by rewrite <- app_assoc.
    + intros z Hz. apply Hsave, elem_of_cons. by right.
    + exact Hfail.
Qed.

Lemma create_from_composition_validated (X : Externals)
    (annotation_path hierarchy_path metadata_path excitatory_neuron_density_path
     taxonomy_path composition_path output_dir : string) (t : list event)
    (annotation excitatory : VoxelData) (region_map : RegionMap X)
    (metadata : Metadata X) (taxonomy : DataFrame) (composition : Composition) :
  validated_inputs X annotation_path hierarchy_path metadata_path
    excitatory_neuron_density_path taxonomy_path composition_path
    annotation region_map metadata excitatory taxonomy composition ->
  create_from_composition X annotation_path hierarchy_path metadata_path
    excitatory_neuron_density_path taxonomy_path composition_path output_dir t
  = write_and_finish X annotation output_dir
      (_create_from_composition X annotation region_map metadata
         (raw excitatory) taxonomy composition)
      (t ++ [CoreFromComposition annotation (raw excitatory) taxonomy
               composition])%list.
Proof.
  intros (Hann & Hrm & Hmd & Hexc & Htax & Hcomp & V1 & V2 & V3 & V4 & V5).
  unfold create_from_composition.
  rewrite Hann, bind_lift_ok, Hrm, bind_lift_ok, Hmd, bind_lift_ok, Hexc,
    bind_lift_ok, V1, bind_lift_ok, Htax, bind_lift_ok, V2, bind_lift_ok,
    Hcomp, bind_lift_ok, V3, bind_lift_ok, V4, bind_lift_ok, V5, bind_lift_ok.
  by rewrite bind_emit.
Qed.

(** X17. When its inputs are loaded and pass the five checks and every
    file can be written, [create_from_composition] calls the core once
    and then writes one file per yielded pair, in the order yielded; it
    returns if the generator ends normally, and raises the exception that
    ended the generator otherwise, the files of the pairs yielded before
    that staying written. *)
Theorem create_from_composition_outcome (X : Externals)
    (annotation_path hierarchy_path metadata_path excitatory_neuron_density_path
     taxonomy_path composition_path output_dir : string) (t : list event)
    (annotation excitatory : VoxelData) (region_map : RegionMap X)
    (metadata : Metadata X) (taxonomy : DataFrame) (composition : Composition)
    (yielded : list (string * ndarray)) (failure : option exn) :
  validated_inputs X annotation_path hierarchy_path metadata_path
    excitatory_neuron_density_path taxonomy_path composition_path
    annotation region_map metadata excitatory taxonomy composition ->
  _create_from_composition X annotation region_map metadata (raw excitatory)
    taxonomy composition = (yielded, failure) ->
  (forall y, y ∈ yielded ->
     save_nrrd X (density_file annotation output_dir y).2
       (density_file annotation output_dir y).1 = Ok tt) ->
  create_from_composition X annotation_path hierarchy_path metadata_path
    excitatory_neuron_density_path taxonomy_path composition_path output_dir t
  = (generator_outcome failure,
     (t ++ CoreFromComposition annotation (raw excitatory) taxonomy composition
        :: (save_event annotation output_dir <$> yielded))%list).
Proof.
  intros Hvalid Hgen Hsave.
  rewrite (create_from_composition_validated X annotation_path hierarchy_path
             metadata_path excitatory_neuron_density_path taxonomy_path
             composition_path output_dir t annotation excitatory region_map
             metadata taxonomy composition Hvalid).
  rewrite Hgen. unfold write_and_finish.
  rewrite bind_unfold, (write_densities_all_saved X annotation output_dir
                          yielded _ Hsave).
  rewrite <- app_assoc. by destruct failure.
Qed.

Lemma create_from_composition_outcome_witness :
  validated_inputs Sample.world "annotation.nrrd" "hierarchy.json"
    "metadata.json" "excitatory.nrrd" "taxonomy.tsv" "composition.yaml"
    Sample.annotation tt tt Sample.excitatory Sample.taxonomy
    (composition_of_entries Sample.composition_entries)
  /\ create_from_composition Sample.world "annotation.nrrd" "hierarchy.json"
       "metadata.json" "excitatory.nrrd" "taxonomy.tsv" "composition.yaml"
       "out" []
     = (Ok tt, Sample.composition_trace).
Proof.
  assert (Hvalid :
    validated_inputs Sample.world "annotation.nrrd" "hierarchy.json"
      "metadata.json" "excitatory.nrrd" "taxonomy.tsv" "composition.yaml"
      Sample.annotation tt tt Sample.excitatory Sample.taxonomy
      (composition_of_entries Sample.composition_entries)).
  { repeat split; vm_compute; reflexivity. }
  split; [exact Hvalid|].
  apply (create_from_composition_outcome Sample.world "annotation.nrrd"
           "hierarchy.json" "metadata.json" "excitatory.nrrd" "taxonomy.tsv"
           "composition.yaml" "out" [] Sample.annotation Sample.excitatory tt tt
           Sample.taxonomy (composition_of_entries Sample.composition_entries)
           (Sample.yield_all (raw Sample.excitatory)
              (composition_of_entries Sample.composition_entries))
           None Hvalid); [reflexivity|].
  intros y _. reflexivity.
Defined.

(** X18. When a file cannot be written, [create_from_composition] raises
    the error of [save_nrrd] at once: the files of the pairs yielded
    before stay written, and nothing is written for the failing pair or
    for the pairs after it. *)
Theorem create_from_composition_failed_save (X : Externals)
    (annotation_path hierarchy_path metadata_path excitatory_neuron_density_path
     taxonomy_path composition_path output_dir : string) (t : list event)
    (annotation excitatory : VoxelData) (region_map : RegionMap X)
    (metadata : Metadata X) (taxonomy : DataFrame) (composition : Composition)
    (before after : list (string * ndarray)) (y : string * ndarray)
    (failure : option exn) (e : exn) :
  validated_inputs X annotation_path hierarchy_path metadata_path
    excitatory_neuron_density_path taxonomy_path composition_path
    annotation region_map metadata excitatory taxonomy composition ->
  _create_from_composition X annotation region_map metadata (raw excitatory)
    taxonomy composition = ((before ++ y :: after)%list, failure) ->
  (forall z, z ∈ before ->
     save_nrrd X (density_file annotation output_dir z).2
       (density_file annotation output_dir z).1 = Ok tt) ->
  save_nrrd X (density_file annotation output_dir y).2
    (density_file annotation output_dir y).1 = Raise e ->
  create_from_composition X annotation_path hierarchy_path metadata_path
    excitatory_neuron_density_path taxonomy_path composition_path output_dir t
  = (Raise e,
     (t ++ CoreFromComposition annotation (raw excitatory) taxonomy composition
        :: (save_event annotation output_dir <$> before))%list).
Proof.
  intros Hvalid Hgen Hsave Hfail.
  rewrite (create_from_composition_validated X annotation_path hierarchy_path
             metadata_path excitatory_neuron_density_path taxonomy_path
             composition_path output_dir t annotation excitatory region_map
             metadata taxonomy composition Hvalid).
  rewrite Hgen. unfold write_and_finish.
  rewrite bind_unfold, (write_densities_failed_save X annotation output_dir
                          before after y e _ Hsave Hfail).
  by rewrite <- app_assoc.
Qed.

Lemma create_from_composition_failed_save_witness :
  save_nrrd Scenario.world
    (with_data Sample.annotation (raw Sample.excitatory))
    (Path "out" "L2_TPC_densities.nrrd") = Raise (ExternalError "OSError")
  /\ create_from_composition Scenario.world "annotation.nrrd" "hierarchy.json"
       "metadata.json" "excitatory.nrrd" "taxonomy.tsv" "composition.yaml"
       "out" []
     = (Raise (ExternalError "OSError"),
        [CoreFromComposition Sample.annotation (raw Sample.excitatory)
           Sample.taxonomy (composition_of_entries Sample.composition_entries);
         SaveNrrd (Path "out" "L1_DAC_densities.nrrd")
           (with_data Sample.annotation (raw Sample.excitatory))]).
Proof.
  split; [reflexivity|].
  apply (create_from_composition_failed_save Scenario.world "annotation.nrrd"
           "hierarchy.json" "metadata.json" "excitatory.nrrd" "taxonomy.tsv"
           "composition.yaml" "out" [] Sample.annotation Sample.excitatory tt tt
           Sample.taxonomy (composition_of_entries Sample.composition_entries)
           [("L1_DAC", raw Sample.excitatory)]
           [("L3_TPC", raw Sample.excitatory)]
           ("L2_TPC", raw Sample.excitatory) None (ExternalError "OSError")).
  - repeat split; vm_compute; reflexivity.
  - reflexivity.
  - intros z Hz. apply list_elem_of_singleton in Hz as ->. reflexivity.
  - reflexivity.
Defined.
